(** * dtype_util: dtype normalisation and reconciliation

    A shallow embedding of
    [tensorflow_probability/python/internal/dtype_util.py] and proofs of the
    properties its specification states.

    The module is glue over two host libraries, NumPy ([np]) and TensorFlow
    ([tf]).  The parts of them the module calls are modelled in the modules
    [np] and [tf] below; the functions of [dtype_util.py] itself are embedded,
    one definition per source function, in the module [dtype_util].

    Python exceptions are modelled by the error monad [result]; the three
    module-level flags by the record [config], passed explicitly. *)

From Stdlib Require Import ZArith List String Bool Lia Permutation.
Import ListNotations.

#[local] Set Warnings "-register-all".
Local Open Scope Z_scope.

(* ===================================================================== *)
(** ** Descriptors *)

(** Modelled from the spec: the registry of NumPy scalar types the host
    offers (section 3, "fixed global registry of supported types").  These
    are the objects [DType.as_numpy_dtype] returns and [np.dtype] wraps: the
    standard boolean, integer, floating and complex types, [object_] (the
    carrier of strings) and the five structured types that carry
    TensorFlow's quantized integers. *)
Inductive np_type : Type :=
| np_bool_ | np_int8 | np_int16 | np_int32 | np_int64
| np_uint8 | np_uint16 | np_uint32 | np_uint64
| np_float16 | np_float32 | np_float64
| np_complex64 | np_complex128
| np_object_
| np_qint8 | np_quint8 | np_qint16 | np_quint16 | np_qint32.

(** Modelled from the spec: the type tags of [tf.DType], for the types with a
    NumPy counterpart. *)
Inductive type_enum : Type :=
| DT_FLOAT | DT_DOUBLE | DT_INT32 | DT_UINT8 | DT_INT16 | DT_INT8
| DT_STRING | DT_COMPLEX64 | DT_INT64 | DT_BOOL
| DT_QINT8 | DT_QUINT8 | DT_QINT32 | DT_QINT16 | DT_QUINT16
| DT_UINT16 | DT_COMPLEX128 | DT_HALF | DT_UINT32 | DT_UINT64.

(** Modelled from the spec: a [tf.DType] is a type tag together with the
    reference qualifier ("ref to float32", section 3). *)
Record DType : Type := mkDType { enum : type_enum; is_ref : bool }.

(** A value the module accepts where it expects a dtype: a [tf.DType] or a
    NumPy type.  The source probes such an object with [hasattr]; here the
    probe is the case analysis on this variant (a [tf.DType] has every
    property the source asks for, a NumPy type has none of them). *)
Inductive dtype_like : Type :=
| TfDType (d : DType)
| NpType (t : np_type).

Scheme Equality for np_type.
Scheme Equality for type_enum.

Definition DType_eqb (a b : DType) : bool :=
  type_enum_beq (enum a) (enum b) && Bool.eqb (is_ref a) (is_ref b).

(* ===================================================================== *)
(** ** Exceptions and the error monad *)

(** The exceptions the module raises ([raise] statements of the source, with
    the arguments of their format strings) and the ones the host raises
    through it. *)
Inductive exception : Type :=
(* common_dtype: 'Found incompatible dtypes, {} and {}. Seen so far: {}' *)
| TypeError_incompatible_seen
    (dtype dt : dtype_like) (seen : list (option dtype_like))
(* convert_to_dtype: 'Found incompatible dtypes, {} and {}.' *)
| TypeError_incompatible (dtype dt : dtype_like)
(* _assert_same_base_type: '{}, type={}, must be of the same type ({}){}.';
   the last argument is the name in the part ' as {}', [None] when the
   message has no such part *)
| ValueError_same_type
    (item_name : string) (item_type expected_type : dtype_like)
    (as_name : option string)
(* assert_same_float_dtype: 'Expected floating point type, got {}.' *)
| ValueError_not_floating (dtype : dtype_like)
(* DType.max / DType.min: 'Cannot find maximum value of {}.' *)
| TypeError_no_bound (d : DType)
(* np.finfo / np.iinfo on a type of the wrong kind *)
| ValueError_finfo (t : np_type)
| ValueError_iinfo (t : np_type)
(* np.dtype(x) on an object NumPy cannot interpret *)
| TypeError_np_dtype (d : DType)
(* np.add without a loop for the operand types *)
| UFuncTypeError (a b : np_type)
(* tf.as_dtype(None) *)
| TypeError_as_dtype_None
(* attribute access on an object without the attribute *)
| AttributeError (attr : string)
(* tf.convert_to_tensor could not convert *)
| ConversionError.

Inductive result (A : Type) : Type :=
| Ok (a : A)
| Raise (e : exception).
Arguments Ok {A} a.
Arguments Raise {A} e.

Definition bind {A B : Type} (m : result A) (k : A -> result B) : result B :=
  match m with
  | Ok a => k a
  | Raise e => Raise e
  end.

Notation "x <- m ;; k" := (bind m (fun x => k))
  (at level 61, m at next level, right associativity).

(** The error classes of the specification (section 7). *)
Definition IncompatibleTypes (e : exception) : bool :=
  match e with
  | TypeError_incompatible_seen _ _ _ | TypeError_incompatible _ _ => true
  | _ => false
  end.

Definition UnsupportedType (e : exception) : bool :=
  match e with
  | TypeError_no_bound _ | ValueError_finfo _ | ValueError_iinfo _ => true
  | _ => false
  end.

Definition NotFloatingPoint (e : exception) : bool :=
  match e with
  | ValueError_not_floating _ => true
  | _ => false
  end.

(* ===================================================================== *)
(** ** The host: NumPy *)

Module np.

(** Modelled from the spec: the type hierarchy of NumPy, given by the
    [kind] character of a dtype. *)
Inductive kind_char : Type := kb | ki | ku | kf | kc | kO | kV.

Definition kind (t : np_type) : kind_char :=
  match t with
  | np_bool_ => kb
  | np_int8 | np_int16 | np_int32 | np_int64 => ki
  | np_uint8 | np_uint16 | np_uint32 | np_uint64 => ku
  | np_float16 | np_float32 | np_float64 => kf
  | np_complex64 | np_complex128 => kc
  | np_object_ => kO
  | np_qint8 | np_quint8 | np_qint16 | np_quint16 | np_qint32 => kV
  end.

(** Modelled from the spec: [np.dtype(t).itemsize], the storage width in
    bytes. *)
Definition itemsize (t : np_type) : Z :=
  match t with
  | np_bool_ | np_int8 | np_uint8 | np_qint8 | np_quint8 => 1
  | np_int16 | np_uint16 | np_float16 | np_qint16 | np_quint16 => 2
  | np_int32 | np_uint32 | np_float32 | np_qint32 => 4
  | np_int64 | np_uint64 | np_float64 | np_complex64 | np_object_ => 8
  | np_complex128 => 16
  end.

(** [np.issubdtype(t, np.integer)], [np.floating], [np.complexfloating]. *)
Definition issubdtype_integer (t : np_type) : bool :=
  match kind t with ki | ku => true | _ => false end.
Definition issubdtype_floating (t : np_type) : bool :=
  match kind t with kf => true | _ => false end.
Definition issubdtype_complexfloating (t : np_type) : bool :=
  match kind t with kc => true | _ => false end.

(** Modelled from the spec: [np.iinfo(t).max] and [.min], the bounds of an
    integer type; [ValueError] for any other kind. *)
Definition iinfo_max (t : np_type) : result Z :=
  match t with
  | np_int8 => Ok 127
  | np_int16 => Ok 32767
  | np_int32 => Ok 2147483647
  | np_int64 => Ok 9223372036854775807
  | np_uint8 => Ok 255
  | np_uint16 => Ok 65535
  | np_uint32 => Ok 4294967295
  | np_uint64 => Ok 18446744073709551615
  | _ => Raise (ValueError_iinfo t)
  end.

Definition iinfo_min (t : np_type) : result Z :=
  match t with
  | np_int8 => Ok (-128)
  | np_int16 => Ok (-32768)
  | np_int32 => Ok (-2147483648)
  | np_int64 => Ok (-9223372036854775808)
  | np_uint8 | np_uint16 | np_uint32 | np_uint64 => Ok 0
  | _ => Raise (ValueError_iinfo t)
  end.

(** Modelled from the spec: [np.finfo(t).max], the largest finite value of
    a floating type (of the component type for a complex one), an
    integer in each case: [(2 - 2^-p) * 2^emax]. *)
Definition finfo_max (t : np_type) : result Z :=
  match t with
  | np_float16 => Ok (2 ^ 16 - 2 ^ 5)
  | np_float32 | np_complex64 => Ok (2 ^ 128 - 2 ^ 104)
  | np_float64 | np_complex128 => Ok (2 ^ 1024 - 2 ^ 971)
  | _ => Raise (ValueError_finfo t)
  end.

Definition finfo_min (t : np_type) : result Z :=
  m <- finfo_max t ;; Ok (- m).

(** Modelled from the spec: [np.issctype(t)] for a NumPy type [t] (section
    4.1, "convertible to a standard numeric scalar type"): every type of the
    registry stands for a scalar data type, except [object_]. *)
Definition issctype (t : np_type) : bool :=
  match t with
  | np_object_ => false
  | _ => true
  end.

(** Modelled from the spec: the name of a NumPy type ([__name__]). *)
Definition type_name (t : np_type) : string :=
  match t with
  | np_bool_ => "bool_"
  | np_int8 => "int8" | np_int16 => "int16"
  | np_int32 => "int32" | np_int64 => "int64"
  | np_uint8 => "uint8" | np_uint16 => "uint16"
  | np_uint32 => "uint32" | np_uint64 => "uint64"
  | np_float16 => "float16" | np_float32 => "float32"
  | np_float64 => "float64"
  | np_complex64 => "complex64" | np_complex128 => "complex128"
  | np_object_ => "object_"
  | np_qint8 => "qint8" | np_quint8 => "quint8"
  | np_qint16 => "qint16" | np_quint16 => "quint16"
  | np_qint32 => "qint32"
  end.

(** Modelled from the spec: [np.array(0, t).real.dtype], the type of the
    real part of a zero of type [t]. *)
Definition real_type (t : np_type) : np_type :=
  match t with
  | np_complex64 => np_float32
  | np_complex128 => np_float64
  | _ => t
  end.

(** Arithmetic promotion.  A numeric type is a boolean, a signed or
    unsigned integer of some width in bits, or a float or complex number
    of some rank (1: half, 2: single, 3: double precision). *)
Inductive numeric : Type :=
| NBool
| NInt (bits : Z)
| NUInt (bits : Z)
| NFloat (rank : Z)
| NComplex (rank : Z).

Definition as_numeric (t : np_type) : option numeric :=
  match t with
  | np_bool_ => Some NBool
  | np_int8 => Some (NInt 8) | np_int16 => Some (NInt 16)
  | np_int32 => Some (NInt 32) | np_int64 => Some (NInt 64)
  | np_uint8 => Some (NUInt 8) | np_uint16 => Some (NUInt 16)
  | np_uint32 => Some (NUInt 32) | np_uint64 => Some (NUInt 64)
  | np_float16 => Some (NFloat 1) | np_float32 => Some (NFloat 2)
  | np_float64 => Some (NFloat 3)
  | np_complex64 => Some (NComplex 2) | np_complex128 => Some (NComplex 3)
  | _ => None
  end.

Definition of_numeric (n : numeric) : np_type :=
  match n with
  | NBool => np_bool_
  | NInt b => if b <=? 8 then np_int8 else if b <=? 16 then np_int16
              else if b <=? 32 then np_int32 else np_int64
  | NUInt b => if b <=? 8 then np_uint8 else if b <=? 16 then np_uint16
               else if b <=? 32 then np_uint32 else np_uint64
  | NFloat r => if r <=? 1 then np_float16 else if r <=? 2 then np_float32
                else np_float64
  | NComplex r => if r <=? 2 then np_complex64 else np_complex128
  end.

(** The rank of the smallest float that holds every integer of the given
    width. *)
Definition float_rank_of_bits (b : Z) : Z :=
  if b <=? 8 then 1 else if b <=? 16 then 2 else 3.

(** Modelled from the spec: NumPy's promotion table ([np.promote_types])
    on the numeric types. *)
Definition promote (a b : numeric) : numeric :=
  match a, b with
  | NBool, x | x, NBool => x
  | NInt x, NInt y => NInt (Z.max x y)
  | NUInt x, NUInt y => NUInt (Z.max x y)
  | NInt i, NUInt u | NUInt u, NInt i =>
      if u <? i then NInt i
      else if u <? 64 then NInt (2 * u)
      else NFloat 3
  | NInt x, NFloat r | NUInt x, NFloat r
  | NFloat r, NInt x | NFloat r, NUInt x =>
      NFloat (Z.max r (float_rank_of_bits x))
  | NInt x, NComplex r | NUInt x, NComplex r
  | NComplex r, NInt x | NComplex r, NUInt x =>
      NComplex (Z.max r (float_rank_of_bits x))
  | NFloat x, NFloat y => NFloat (Z.max x y)
  | NFloat x, NComplex y | NComplex y, NFloat x => NComplex (Z.max x y)
  | NComplex x, NComplex y => NComplex (Z.max x y)
  end.

(** Modelled from the spec: the dtype of
    [np.ones([2], a) + np.ones([2], b)] (section 7, "type of adding two
    length-2 arrays of the respective types"): the promoted type of two
    numeric types; [object_] when one side holds Python objects and the
    other is numeric or [object_]; structured types have no [add] loop. *)
Definition ones_add (a b : np_type) : result np_type :=
  match as_numeric a, as_numeric b with
  | Some x, Some y => Ok (of_numeric (promote x y))
  | _, _ =>
      match kind a, kind b with
      | kV, _ | _, kV => Raise (UFuncTypeError a b)
      | _, _ => Ok np_object_
      end
  end.

End np.

(* ===================================================================== *)
(** ** The host: TensorFlow *)

Module tf.

Definition float16 := mkDType DT_HALF false.
Definition float32 := mkDType DT_FLOAT false.
Definition float64 := mkDType DT_DOUBLE false.
Definition int8 := mkDType DT_INT8 false.
Definition int32 := mkDType DT_INT32 false.
Definition bool_ := mkDType DT_BOOL false.
Definition string_ := mkDType DT_STRING false.
Definition complex64 := mkDType DT_COMPLEX64 false.
Definition complex128 := mkDType DT_COMPLEX128 false.
Definition float32_ref := mkDType DT_FLOAT true.

(** Modelled from the spec: the table from type tags to NumPy types
    ([to_native_descriptor], section 4.1); a reference type maps like its
    base type. *)
Definition _TF_TO_NP (e : type_enum) : np_type :=
  match e with
  | DT_HALF => np_float16 | DT_FLOAT => np_float32 | DT_DOUBLE => np_float64
  | DT_INT8 => np_int8 | DT_INT16 => np_int16
  | DT_INT32 => np_int32 | DT_INT64 => np_int64
  | DT_UINT8 => np_uint8 | DT_UINT16 => np_uint16
  | DT_UINT32 => np_uint32 | DT_UINT64 => np_uint64
  | DT_STRING => np_object_
  | DT_COMPLEX64 => np_complex64 | DT_COMPLEX128 => np_complex128
  | DT_BOOL => np_bool_
  | DT_QINT8 => np_qint8 | DT_QUINT8 => np_quint8
  | DT_QINT16 => np_qint16 | DT_QUINT16 => np_quint16
  | DT_QINT32 => np_qint32
  end.

(** Modelled from the spec: the table back, from NumPy types to
    (non-reference) [DType]s. *)
Definition _NP_TO_TF (t : np_type) : type_enum :=
  match t with
  | np_float16 => DT_HALF | np_float32 => DT_FLOAT | np_float64 => DT_DOUBLE
  | np_int8 => DT_INT8 | np_int16 => DT_INT16
  | np_int32 => DT_INT32 | np_int64 => DT_INT64
  | np_uint8 => DT_UINT8 | np_uint16 => DT_UINT16
  | np_uint32 => DT_UINT32 | np_uint64 => DT_UINT64
  | np_object_ => DT_STRING
  | np_complex64 => DT_COMPLEX64 | np_complex128 => DT_COMPLEX128
  | np_bool_ => DT_BOOL
  | np_qint8 => DT_QINT8 | np_quint8 => DT_QUINT8
  | np_qint16 => DT_QINT16 | np_quint16 => DT_QUINT16
  | np_qint32 => DT_QINT32
  end.

(** Modelled from the spec: [tf.as_dtype] returns a [DType] as it is and
    converts a NumPy type through the table. *)
Definition as_dtype (type_value : dtype_like) : dtype_like :=
  match type_value with
  | TfDType d => TfDType d
  | NpType t => TfDType (mkDType (_NP_TO_TF t) false)
  end.

(** Modelled from the spec: [DType.base_dtype] strips the reference
    qualifier (section 3). *)
Definition base_dtype (d : DType) : DType := mkDType (enum d) false.

Definition as_numpy_dtype (d : DType) : np_type := _TF_TO_NP (enum d).

(** Modelled from the spec: every type of the registry has a NumPy
    counterpart. *)
Definition is_numpy_compatible (d : DType) : bool := true.

Definition is_quantized (d : DType) : bool :=
  match enum d with
  | DT_QINT8 | DT_QUINT8 | DT_QINT16 | DT_QUINT16 | DT_QINT32 => true
  | _ => false
  end.

(** Modelled from the spec: the category properties of a [DType]
    (section 3, "category"). *)
Definition is_bool (d : DType) : bool :=
  type_enum_beq (enum (base_dtype d)) DT_BOOL.

Definition is_integer (d : DType) : bool :=
  is_numpy_compatible d && negb (is_quantized d)
  && np.issubdtype_integer (as_numpy_dtype d).

Definition is_floating (d : DType) : bool :=
  is_numpy_compatible d && np.issubdtype_floating (as_numpy_dtype d).

Definition is_complex (d : DType) : bool :=
  match enum (base_dtype d) with
  | DT_COMPLEX64 | DT_COMPLEX128 => true
  | _ => false
  end.

(** Modelled from the spec: [DType.size], the storage width in bytes. *)
Definition size (d : DType) : Z := np.itemsize (as_numpy_dtype d).

(** Modelled from the spec: [DType.name], the display name; a reference
    type carries the suffix [_ref]. *)
Definition name (d : DType) : string :=
  let base :=
    match enum d with
    | DT_HALF => "float16" | DT_FLOAT => "float32" | DT_DOUBLE => "float64"
    | DT_INT8 => "int8" | DT_INT16 => "int16"
    | DT_INT32 => "int32" | DT_INT64 => "int64"
    | DT_UINT8 => "uint8" | DT_UINT16 => "uint16"
    | DT_UINT32 => "uint32" | DT_UINT64 => "uint64"
    | DT_STRING => "string"
    | DT_COMPLEX64 => "complex64" | DT_COMPLEX128 => "complex128"
    | DT_BOOL => "bool"
    | DT_QINT8 => "qint8" | DT_QUINT8 => "quint8"
    | DT_QINT16 => "qint16" | DT_QUINT16 => "quint16"
    | DT_QINT32 => "qint32"
    end%string in
  if is_ref d then (base ++ "_ref")%string else base.

(** Modelled from the spec: [DType.real_dtype], the type of the real part
    (section 4.1, [real_component_descriptor]). *)
Definition real_dtype (d : DType) : DType :=
  match enum (base_dtype d) with
  | DT_COMPLEX64 => float32
  | DT_COMPLEX128 => float64
  | _ => d
  end.

(** Modelled from the spec: [DType.max] and [DType.min] (section 3,
    "numeric bounds", and section 4.1): a [TypeError] for the types without
    defined bounds (quantized, boolean, string), otherwise the floating
    bound (of the component type for a complex type), or, that failing, the
    integer bound. *)
Definition has_no_bound (d : DType) : bool :=
  is_quantized d ||
  match enum (base_dtype d) with
  | DT_BOOL | DT_STRING => true
  | _ => false
  end.

Definition max (d : DType) : result Z :=
  if has_no_bound d then Raise (TypeError_no_bound d)
  else match np.finfo_max (as_numpy_dtype d) with
       | Ok m => Ok m
       | Raise _ =>
           match np.iinfo_max (as_numpy_dtype d) with
           | Ok m => Ok m
           | Raise _ => Raise (TypeError_no_bound d)
           end
       end.

Definition min (d : DType) : result Z :=
  if has_no_bound d then Raise (TypeError_no_bound d)
  else match np.finfo_min (as_numpy_dtype d) with
       | Ok m => Ok m
       | Raise _ =>
           match np.iinfo_min (as_numpy_dtype d) with
           | Ok m => Ok m
           | Raise _ => Raise (TypeError_no_bound d)
           end
       end.

(** Modelled from the spec: [DType.__eq__] converts the other operand with
    [as_dtype] and compares the type tags, reference qualifier
    included. *)
Definition DType_eq (self : DType) (other : dtype_like) : bool :=
  match as_dtype other with
  | TfDType o => DType_eqb self o
  | NpType _ => false
  end.

End tf.

(* ===================================================================== *)
(** ** Python values *)

(** [a == b] on dtype-like objects: [DType.__eq__] when either side is a
    [DType] (NumPy types defer to the reflected method), identity of the
    type otherwise. *)
Definition py_eq (a b : dtype_like) : bool :=
  match a, b with
  | TfDType d, _ => tf.DType_eq d b
  | NpType _, TfDType d => tf.DType_eq d a
  | NpType s, NpType t => np_type_beq s t
  end.

Definition py_ne (a b : dtype_like) : bool := negb (py_eq a b).

(** Truth value of [x] where [x] is a dtype or [None]: neither [DType] nor a
    NumPy type defines a truth value, so only [None] is false. *)
Definition truthy (x : option dtype_like) : bool :=
  match x with
  | Some _ => true
  | None => false
  end.

(** [x or y]. *)
Definition py_or (x y : option dtype_like) : option dtype_like :=
  if truthy x then x else y.

(** [x or y] where [y] is a dtype. *)
Definition py_or_dtype (x : option dtype_like) (y : dtype_like) : dtype_like :=
  match x with
  | Some d => if truthy x then d else y
  | None => y
  end.

(** A tagged value (section 3): an object that may expose a [dtype]
    attribute (absent, [None] or a dtype) and a [name]; [str] is its
    display form. *)
Record pyobject : Type := mkObject {
  attr_dtype : option (option dtype_like);
  attr_name : option string;
  str : string
}.

(** A nested structure of values, as [tf.nest] sees it. *)
Inductive nest : Type :=
| Leaf (a : pyobject)
| Nested (items : list nest).

(** The first argument of [convert_to_dtype], by the test of the source that
    accepts it; for a NumPy type the test is [np.issctype], which the chain
    of [convert_to_dtype] evaluates.  Any other Python object is given by
    what [tf.convert_to_tensor(value, dtype, dtype_hint).dtype] yields for
    it. *)
Inductive tensor_or_dtype : Type :=
| IsNone
| IsTensor (dtype : DType)                          (* tf.is_tensor *)
| IsDType (d : DType)                               (* tf.DType *)
| IsNdarray (dtype : np_type)                       (* np.ndarray *)
| IsNpType (t : np_type)                            (* a NumPy type *)
| IsObject (converted_dtype :
              option dtype_like -> option dtype_like -> result DType).

(** The module-level flags. *)
Record config : Type := mkConfig {
  JAX_MODE : bool;
  NUMPY_MODE : bool;
  SKIP_DTYPE_CHECKS : bool
}.

(** The flags as the source sets them. *)
Definition default_config : config :=
  {| JAX_MODE := false; NUMPY_MODE := false; SKIP_DTYPE_CHECKS := false |}.

(** The flags with the dtype checks skipped. *)
Definition skip_config : config :=
  {| JAX_MODE := false; NUMPY_MODE := false; SKIP_DTYPE_CHECKS := true |}.

(** [for a in l: s = body(s, a)], stopping at the first exception. *)
Fixpoint for_each {S A : Type} (body : S -> A -> result S)
    (l : list A) (s : S) : result S :=
  match l with
  | [] => Ok s
  | a :: l' => s' <- body s a ;; for_each body l' s'
  end.

(* ===================================================================== *)
(** ** dtype_util.py *)

Module dtype_util.

(** [tf.nest.flatten]. *)
Fixpoint flatten (structure : nest) : list pyobject :=
  match structure with
  | Leaf a => [a]
  | Nested items => flat_map flatten items
  end.

(** [is_numpy_compatible(dtype)]; the source reads the property without
    probing for it. *)
Definition is_numpy_compatible (cfg : config) (dtype : dtype_like)
    : result bool :=
  if JAX_MODE cfg || NUMPY_MODE cfg then Ok true
  else match tf.as_dtype dtype with
       | TfDType d => Ok (tf.is_numpy_compatible d)
       | NpType _ => Raise (AttributeError "is_numpy_compatible")
       end.

(** [as_numpy_dtype(dtype)] *)
Definition as_numpy_dtype (dtype : dtype_like) : dtype_like :=
  let dtype := tf.as_dtype dtype in
  match dtype with
  | TfDType d => NpType (tf.as_numpy_dtype d)
  | NpType _ => dtype
  end.

(** [base_dtype(dtype)] *)
Definition base_dtype (dtype : dtype_like) : dtype_like :=
  let dtype := tf.as_dtype dtype in
  match dtype with
  | TfDType d => TfDType (tf.base_dtype d)
  | NpType _ => dtype
  end.

(** [base_equal(a, b)] *)
Definition base_equal (a b : dtype_like) : bool :=
  py_eq (base_dtype a) (base_dtype b).

(** [is_bool(dtype)] *)
Definition is_bool (dtype : dtype_like) : bool :=
  match tf.as_dtype dtype with
  | TfDType d => tf.is_bool d
  | NpType t => match np.kind t with np.kb => true | _ => false end
  end.

(** [is_complex(dtype)] *)
Definition is_complex (dtype : dtype_like) : bool :=
  match tf.as_dtype dtype with
  | TfDType d => tf.is_complex d
  | NpType t => np.issubdtype_complexfloating t
  end.

(** [is_floating(dtype)] *)
Definition is_floating (dtype : dtype_like) : bool :=
  match tf.as_dtype dtype with
  | TfDType d => tf.is_floating d
  | NpType t => np.issubdtype_floating t
  end.

(** [is_integer(dtype)]; the property of a [DType] is not callable. *)
Definition is_integer (dtype : dtype_like) : bool :=
  match tf.as_dtype dtype with
  | TfDType d => tf.is_integer d
  | NpType t => np.issubdtype_integer t
  end.

(** [max(dtype)] *)
Definition max (dtype : dtype_like) : result Z :=
  let dtype := tf.as_dtype dtype in
  match dtype with
  | TfDType d => tf.max d
  | NpType t =>
      let use_finfo := is_floating dtype || is_complex dtype in
      if use_finfo then np.finfo_max t else np.iinfo_max t
  end.

(** [min(dtype)] *)
Definition min (dtype : dtype_like) : result Z :=
  let dtype := tf.as_dtype dtype in
  match dtype with
  | TfDType d => tf.min d
  | NpType t =>
      let use_finfo := is_floating dtype || is_complex dtype in
      if use_finfo then np.finfo_min t else np.iinfo_min t
  end.

(** [size(dtype)] *)
Definition size (dtype : dtype_like) : Z :=
  match tf.as_dtype dtype with
  | TfDType d => tf.size d
  | NpType t => np.itemsize t
  end.

(** [name(dtype)] *)
Definition name (dtype : dtype_like) : string :=
  match tf.as_dtype dtype with
  | TfDType d => tf.name d
  | NpType t => np.type_name t
  end.

(** [real_dtype(dtype)] *)
Definition real_dtype (dtype : dtype_like) : dtype_like :=
  let dtype := tf.as_dtype dtype in
  match dtype with
  | TfDType d => TfDType (tf.real_dtype d)
  | NpType _ =>
      match as_numpy_dtype dtype with
      | NpType t => NpType (np.real_type t)
      | TfDType _ => dtype
      end
  end.

(** [np.dtype(x)]: NumPy cannot interpret a [tf.DType]. *)
Definition np_dtype (x : dtype_like) : result np_type :=
  match x with
  | NpType t => Ok t
  | TfDType d => Raise (TypeError_np_dtype d)
  end.

(** [(np.ones([2], dtype) + np.ones([2], dt)).dtype] *)
Definition ones_add_dtype (dtype dt : dtype_like) : result dtype_like :=
  a <- np_dtype dtype ;;
  b <- np_dtype dt ;;
  t <- np.ones_add a b ;;
  Ok (NpType t).

(** The variables [dtype] and [seen] of the loop of [common_dtype]. *)
Record common_state : Type := mkState {
  st_dtype : option dtype_like;
  st_seen : list (option dtype_like)
}.

(** The test [hasattr(a, 'dtype') and a.dtype]. *)
Definition dtype_of (a : pyobject) : option dtype_like :=
  match attr_dtype a with
  | Some x => if truthy x then x else None
  | None => None
  end.

(** One iteration of the loop of [common_dtype]. *)
Definition common_dtype_body (cfg : config)
    (st : common_state) (a : pyobject) : result common_state :=
  match dtype_of a with
  | Some a_dtype =>
      let dt := as_numpy_dtype a_dtype in
      let seen := st_seen st ++ [Some dt] in
      match st_dtype st with
      | None => Ok (mkState (Some dt) seen)
      | Some dtype =>
          if py_ne dtype dt then
            if SKIP_DTYPE_CHECKS cfg then
              dtype' <- ones_add_dtype dtype dt ;;
              Ok (mkState (Some dtype') seen)
            else
              Raise (TypeError_incompatible_seen dtype dt seen)
          else Ok (mkState (Some dtype) seen)
      end
  | None => Ok (mkState (st_dtype st) (st_seen st ++ [None]))
  end.

(** [common_dtype(args_list, dtype_hint=None)] *)
Definition common_dtype (cfg : config) (args_list : nest)
    (dtype_hint : option dtype_like) : result (option dtype_like) :=
  st <- for_each (common_dtype_body cfg) (flatten args_list)
          (mkState None []) ;;
  match st_dtype st with
  | None => Ok dtype_hint
  | Some dtype => Ok (Some (base_dtype dtype))
  end.

(** The [if]/[elif] chain of [convert_to_dtype] that computes [dt].  The
    function enters it only when [tensor_or_dtype] is not [None]; on [None]
    the chain would end in [tf.convert_to_tensor(None, ...)], which
    raises. *)
Definition convert_to_dtype_dt (tensor_or_dtype : tensor_or_dtype)
    (dtype dtype_hint : option dtype_like) : result dtype_like :=
  match tensor_or_dtype with
  | IsTensor t_dtype => Ok (base_dtype (TfDType t_dtype))
  | IsDType d => Ok (base_dtype (TfDType d))
  | IsNdarray a_dtype =>
      Ok (base_dtype (py_or_dtype (py_or dtype dtype_hint) (NpType a_dtype)))
  | IsNpType t =>
      if np.issctype t then
        Ok (base_dtype (py_or_dtype (py_or dtype dtype_hint) (NpType t)))
      else
        (* tf.convert_to_tensor does not convert a type object *)
        Raise ConversionError
  | IsObject converted_dtype =>
      d <- converted_dtype dtype dtype_hint ;; Ok (TfDType d)
  | IsNone => Raise ConversionError
  end.

(** [convert_to_dtype(tensor_or_dtype, dtype=None, dtype_hint=None)] *)
Definition convert_to_dtype (cfg : config)
    (tensor_or_dtype : tensor_or_dtype)
    (dtype dtype_hint : option dtype_like) : result (option dtype_like) :=
  match tensor_or_dtype with
  | IsNone => Ok (py_or dtype dtype_hint)
  | _ =>
      dt <- convert_to_dtype_dt tensor_or_dtype dtype dtype_hint ;;
      match dtype with
      | Some d =>
          if negb (SKIP_DTYPE_CHECKS cfg) && truthy dtype
             && negb (base_equal d dt)
          then Raise (TypeError_incompatible d dt)
          else Ok (Some dt)
      | None => Ok (Some dt)
      end
  end.

(** [base_dtype(item.dtype)], with the exceptions of the attribute access
    and of [tf.as_dtype(None)]. *)
Definition item_base_dtype (item : pyobject) : result dtype_like :=
  match attr_dtype item with
  | None => Raise (AttributeError "dtype")
  | Some None => Raise TypeError_as_dtype_None
  | Some (Some d) => Ok (base_dtype d)
  end.

(** [get_name = lambda x: x.name if hasattr(x, 'name') else str(x)] *)
Definition get_name (x : pyobject) : string :=
  match attr_name x with
  | Some n => n
  | None => str x
  end.

(** The first loop of [_assert_same_base_type]: the pair of [mismatch] and
    [expected_type] when the loop ends, by exhaustion or by [break]. *)
Fixpoint first_pass (items : list (option pyobject))
    (expected_type : option dtype_like)
    : result (bool * option dtype_like) :=
  match items with
  | [] => Ok (false, expected_type)
  | None :: items' => first_pass items' expected_type
  | Some item :: items' =>
      item_type <- item_base_dtype item ;;
      match expected_type with
      | None => first_pass items' (Some item_type)
      | Some expected =>
          if py_ne expected item_type then Ok (true, expected_type)
          else first_pass items' expected_type
      end
  end.

(** The last argument of the message of [_assert_same_base_type]:
    [(' as {}'.format(original_item_str)) if original_item_str else ''];
    [None] and the empty string are false. *)
Definition as_part (original_item_str : option string) : option string :=
  match original_item_str with
  | Some s => if String.eqb s "" then None else Some s
  | None => None
  end.

(** The second loop of [_assert_same_base_type], which builds the message.
    [Ok] is the fall-through to [return expected_type], the line marked
    "Should be unreachable". *)
Fixpoint second_pass (items : list (option pyobject))
    (expected_type : option dtype_like) (original_item_str : option string)
    : result (option dtype_like) :=
  match items with
  | [] => Ok expected_type
  | None :: items' => second_pass items' expected_type original_item_str
  | Some item :: items' =>
      item_type <- item_base_dtype item ;;
      if negb (truthy expected_type) then
        second_pass items' (Some item_type) (Some (get_name item))
      else
        match expected_type with
        | Some expected =>
            if py_ne expected item_type then
              Raise (ValueError_same_type (get_name item) item_type
                       expected (as_part original_item_str))
            else second_pass items' expected_type original_item_str
        | None => second_pass items' expected_type original_item_str
        end
  end.

(** [_assert_same_base_type(items, expected_type=None)] *)
Definition _assert_same_base_type (items : list (option pyobject))
    (expected_type : option dtype_like) : result (option dtype_like) :=
  let original_expected_type := expected_type in
  r <- first_pass items expected_type ;;
  let '(mismatch, expected_type) := r in
  if mismatch then
    let expected_type := original_expected_type in
    second_pass items expected_type None
  else Ok expected_type.

(** [if tensors:] on an optional list. *)
Definition nonempty {A : Type} (l : option (list A)) : bool :=
  match l with
  | Some (_ :: _) => true
  | _ => false
  end.

(** The type [assert_same_float_dtype] goes on to check: the result of the
    statement [if tensors: dtype = _assert_same_base_type(tensors, dtype)]. *)
Definition resolved_dtype (tensors : option (list (option pyobject)))
    (dtype : option dtype_like) : result (option dtype_like) :=
  match tensors with
  | Some items =>
      if nonempty tensors then _assert_same_base_type items dtype
      else Ok dtype
  | None => Ok dtype
  end.

(** [assert_same_float_dtype(tensors=None, dtype=None)] *)
Definition assert_same_float_dtype
    (tensors : option (list (option pyobject)))
    (dtype : option dtype_like) : result dtype_like :=
  dtype <- resolved_dtype tensors dtype ;;
  match dtype with
  | None => Ok (TfDType tf.float32)
  | Some d =>
      if negb (is_floating d) then Raise (ValueError_not_floating d)
      else Ok d
  end.

End dtype_util.

(* ===================================================================== *)
(** ** Notions used to state the properties *)

(** What one value contributes to [seen]: the NumPy form of its dtype, or
    [None]. *)
Definition seen_entry (a : pyobject) : option dtype_like :=
  option_map dtype_util.as_numpy_dtype (dtype_util.dtype_of a).

(** The NumPy form of the first dtype the values carry. *)
Fixpoint first_descriptor (vals : list pyobject) : option dtype_like :=
  match vals with
  | [] => None
  | a :: vals' =>
      match seen_entry a with
      | Some dt => Some dt
      | None => first_descriptor vals'
      end
  end.

(** The dtype the loop of [common_dtype] compares with: the running one, or
    the first one ahead when there is none yet. *)
Definition running (st : dtype_util.common_state) (vals : list pyobject)
    : option dtype_like :=
  match dtype_util.st_dtype st with
  | Some d => Some d
  | None => first_descriptor vals
  end.

(** In strict mode the running dtype is one of the entries of [seen]. *)
Definition seen_running (st : dtype_util.common_state) : Prop :=
  forall d, dtype_util.st_dtype st = Some d ->
            In (Some d) (dtype_util.st_seen st).

(** The NumPy type [as_numpy_dtype] gives for a dtype. *)
Definition numpy_type (d : dtype_like) : np_type :=
  match dtype_util.as_numpy_dtype d with
  | NpType t => t
  | TfDType x => tf.as_numpy_dtype x
  end.

(** The NumPy types of the dtypes the values carry, in the order of the
    values. *)
Definition carried_types (vals : list pyobject) : list np_type :=
  flat_map (fun a => match dtype_util.dtype_of a with
                     | Some d => [numpy_type d]
                     | None => []
                     end) vals.

(** Written from the specification (section 4.1, "computes the descriptor
    that would result from arithmetic promotion between the conflicting types
    and continues"): going through the types from left to right, a type equal
    to the running one leaves it, any other type replaces it by the type of
    the sum of two arrays of the two types. *)
Fixpoint promote_from (running : np_type) (types : list np_type)
    : result np_type :=
  match types with
  | [] => Ok running
  | t :: types' =>
      if np_type_beq running t then promote_from running types'
      else promoted <- np.ones_add running t ;; promote_from promoted types'
  end.

Definition promote_all (types : list np_type) : result (option np_type) :=
  match types with
  | [] => Ok None
  | t :: types' => promoted <- promote_from t types' ;; Ok (Some promoted)
  end.

(** A quantized descriptor. *)
Definition is_quantized (d : dtype_like) : bool :=
  match tf.as_dtype d with
  | TfDType t => tf.is_quantized t
  | NpType _ => false
  end.

(** A descriptor of one of the four numeric categories. *)
Definition is_numeric (d : dtype_like) : bool :=
  dtype_util.is_bool d || dtype_util.is_integer d
  || dtype_util.is_floating d || dtype_util.is_complex d.

(** Quantized and string descriptors: the exotic types of the registry. *)
Definition is_exotic (d : dtype_like) : bool :=
  match tf.as_dtype d with
  | TfDType t =>
      tf.is_quantized t || type_enum_beq (enum (tf.base_dtype t)) DT_STRING
  | NpType _ => false
  end.

(** An unsigned integer descriptor: NumPy kind ['u']. *)
Definition is_unsigned (d : dtype_like) : bool :=
  match dtype_util.as_numpy_dtype d with
  | NpType t => match np.kind t with np.ku => true | _ => false end
  | TfDType _ => false
  end.

(** The bounds of a two's-complement or unsigned integer of [8 * size]
    bits. *)
Definition integer_upper (d : dtype_like) : Z :=
  if is_unsigned d then 2 ^ (8 * dtype_util.size d) - 1
  else 2 ^ (8 * dtype_util.size d - 1) - 1.

Definition integer_lower (d : dtype_like) : Z :=
  if is_unsigned d then 0 else - 2 ^ (8 * dtype_util.size d - 1).

(** A value that passes the test [hasattr(a, 'dtype') and a.dtype]. *)
Definition carries_dtype (a : pyobject) : bool :=
  match dtype_util.dtype_of a with
  | Some _ => true
  | None => false
  end.

(** The dtypes the values carry are base-equal, pair by pair. *)
Definition pairwise_base_equal (vals : list pyobject) : Prop :=
  forall a b da db,
    In a vals -> In b vals ->
    dtype_util.dtype_of a = Some da -> dtype_util.dtype_of b = Some db ->
    dtype_util.base_equal da db = true.

(** An entry of [items] that is not [None]. *)
Definition is_item (i : option pyobject) : bool :=
  match i with
  | Some _ => true
  | None => false
  end.

(** An entry of [items] that [_assert_same_base_type] passes over when it
    expects [expected]: [None], or an item whose base dtype does not differ
    from [expected]. *)
Definition agrees (expected : dtype_like) (i : option pyobject) : Prop :=
  match i with
  | None => True
  | Some item =>
      exists t, dtype_util.item_base_dtype item = Ok t /\
                py_ne expected t = false
  end.

(** An entry of [items] that is [None] or a graph item with a dtype. *)
Definition has_dtype (i : option pyobject) : Prop :=
  match i with
  | None => True
  | Some item => exists d, attr_dtype item = Some (Some d)
  end.

(* ===================================================================== *)
(** ** Sample values *)

Definition tensor (name : string) (d : DType) : pyobject :=
  {| attr_dtype := Some (Some (TfDType d));
     attr_name := Some name;
     str := name |}.

(** An object without a [dtype], such as a Python number. *)
Definition scalar (s : string) : pyobject :=
  {| attr_dtype := None; attr_name := None; str := s |}.

Example common_dtype_hint :
  dtype_util.common_dtype default_config
    (Nested [Leaf (scalar "1."); Nested [Leaf (scalar "2")]])
    (Some (TfDType tf.float64))
  = Ok (Some (TfDType tf.float64)).
Proof. reflexivity. Qed.

Example common_dtype_same :
  dtype_util.common_dtype default_config
    (Nested [Leaf (tensor "x" tf.float32_ref); Leaf (scalar "2");
             Leaf (tensor "y" tf.float32)])
    None
  = Ok (Some (TfDType tf.float32)).
Proof. reflexivity. Qed.

Example common_dtype_strict :
  dtype_util.common_dtype default_config
    (Nested [Leaf (tensor "x" tf.float32); Leaf (scalar "2");
             Leaf (tensor "y" tf.float64); Leaf (tensor "z" tf.int32)])
    None
  = Raise (TypeError_incompatible_seen (NpType np_float32) (NpType np_float64)
             [Some (NpType np_float32); None; Some (NpType np_float64)]).
Proof. reflexivity. Qed.

Example real_dtype_samples :
  dtype_util.real_dtype (TfDType tf.complex64) = TfDType tf.float32 /\
  dtype_util.real_dtype (TfDType tf.float32) = TfDType tf.float32 /\
  dtype_util.name (TfDType tf.float32_ref) = "float32_ref"%string /\
  dtype_util.size (NpType np_complex128) = 16.
Proof. repeat split; reflexivity. Qed.

Example promote_samples :
  np.ones_add np_uint8 np_int8 = Ok np_int16 /\
  np.ones_add np_uint64 np_int64 = Ok np_float64 /\
  np.ones_add np_int32 np_float16 = Ok np_float64 /\
  np.ones_add np_int16 np_complex64 = Ok np_complex64 /\
  np.ones_add np_float64 np_complex64 = Ok np_complex128 /\
  np.ones_add np_bool_ np_uint16 = Ok np_uint16.
Proof. repeat split; reflexivity. Qed.

Example assert_same_float_dtype_mismatch :
  dtype_util.assert_same_float_dtype
    (Some [Some (tensor "a" tf.float32); None; Some (tensor "b" tf.float64)])
    None
  = Raise (ValueError_same_type "b" (TfDType tf.float64) (TfDType tf.float32)
             (Some "a"%string)).
Proof. reflexivity. Qed.

(* ===================================================================== *)
(** ** Descriptors: base form and equality *)

Lemma type_enum_beq_refl (e : type_enum) : type_enum_beq e e = true.
Proof. destruct e; reflexivity. Qed.

Lemma type_enum_beq_eq (e f : type_enum) : type_enum_beq e f = true -> e = f.
Proof. destruct e, f; simpl; congruence. Qed.

Lemma np_type_beq_refl (t : np_type) : np_type_beq t t = true.
Proof. destruct t; reflexivity. Qed.

Lemma np_type_beq_eq (s t : np_type) : np_type_beq s t = true -> s = t.
Proof. destruct s, t; simpl; congruence. Qed.

Lemma DType_eqb_refl (d : DType) : DType_eqb d d = true.
Proof.
  unfold DType_eqb. rewrite type_enum_beq_refl, Bool.eqb_reflx. reflexivity.
Qed.

Lemma DType_eqb_eq (a b : DType) : DType_eqb a b = true -> a = b.
Proof.
  destruct a as [ea ra], b as [eb rb]. unfold DType_eqb. simpl.
  intros H. apply andb_prop in H. destruct H as [He Hr].
  apply type_enum_beq_eq in He. apply Bool.eqb_prop in Hr. congruence.
Qed.

(** The two tables of the host are inverse to each other. *)
Lemma NP_TO_TF_TO_NP (t : np_type) : tf._TF_TO_NP (tf._NP_TO_TF t) = t.
Proof. destruct t; reflexivity. Qed.

Lemma TF_TO_NP_TO_TF (e : type_enum) : tf._NP_TO_TF (tf._TF_TO_NP e) = e.
Proof. destruct e; reflexivity. Qed.

Lemma as_dtype_TfDType (x : dtype_like) :
  exists d, tf.as_dtype x = TfDType d.
Proof. destruct x; simpl; eauto. Qed.

Lemma py_eq_refl (x : dtype_like) : py_eq x x = true.
Proof.
  destruct x as [d | t]; simpl.
  - unfold tf.DType_eq. simpl. apply DType_eqb_refl.
  - apply np_type_beq_refl.
Qed.

Lemma py_ne_irrefl (x : dtype_like) : py_ne x x = false.
Proof. unfold py_ne. rewrite py_eq_refl. reflexivity. Qed.

Lemma base_equal_refl (a : dtype_like) : dtype_util.base_equal a a = true.
Proof. apply py_eq_refl. Qed.

Lemma type_enum_beq_sym (e f : type_enum) :
  type_enum_beq e f = type_enum_beq f e.
Proof. destruct e, f; reflexivity. Qed.

Lemma base_equal_sym (a b : dtype_like) :
  dtype_util.base_equal a b = dtype_util.base_equal b a.
Proof.
  unfold dtype_util.base_equal.
  destruct a as [[ea ra] | ta], b as [[eb rb] | tb]; simpl;
    unfold tf.DType_eq, DType_eqb; simpl;
    f_equal; apply type_enum_beq_sym.
Qed.

(** The NumPy form of a dtype is always a NumPy type, and decides base
    equality. *)
Lemma as_numpy_dtype_NpType (x : dtype_like) :
  dtype_util.as_numpy_dtype x
  = NpType (tf._TF_TO_NP (match tf.as_dtype x with
                          | TfDType d => enum d
                          | NpType t => tf._NP_TO_TF t
                          end)).
Proof. destruct x; reflexivity. Qed.

Lemma same_numpy_base_equal (a b : dtype_like) :
  dtype_util.as_numpy_dtype a = dtype_util.as_numpy_dtype b ->
  dtype_util.base_equal a b = true.
Proof.
  rewrite !as_numpy_dtype_NpType. intros H. injection H as H.
  apply (f_equal tf._NP_TO_TF) in H. rewrite !TF_TO_NP_TO_TF in H.
  unfold dtype_util.base_equal, dtype_util.base_dtype.
  destruct a as [[ea ra] | ta], b as [[eb rb] | tb]; simpl in *;
    unfold tf.DType_eq, DType_eqb; simpl; rewrite H, type_enum_beq_refl;
    reflexivity.
Qed.

(** Two NumPy forms that both equal a third object are the same. *)
Lemma py_eq_numpy_unique (d : dtype_like) (s t : np_type) :
  py_ne d (NpType s) = false -> py_ne d (NpType t) = false -> s = t.
Proof.
  unfold py_ne. intros Hs Ht.
  apply negb_false_iff in Hs. apply negb_false_iff in Ht.
  destruct d as [d | u]; simpl in *.
  - unfold tf.DType_eq in *. simpl in *.
    apply DType_eqb_eq in Hs. apply DType_eqb_eq in Ht.
    rewrite Hs in Ht. injection Ht as Ht.
    apply (f_equal tf._TF_TO_NP) in Ht. rewrite !NP_TO_TF_TO_NP in Ht.
    exact Ht.
  - apply np_type_beq_eq in Hs. apply np_type_beq_eq in Ht. congruence.
Qed.

Lemma base_dtype_idempotent_aux (d : dtype_like) :
  dtype_util.base_dtype (dtype_util.base_dtype d) = dtype_util.base_dtype d.
Proof. destruct d as [[e r] | t]; reflexivity. Qed.

(** C7: for every descriptor [d] of the registry, taking the base form twice
    gives the same descriptor as taking it once:
    [base_dtype (base_dtype d) = base_dtype d]. *)
Theorem base_dtype_idempotent (d : dtype_like) :
  dtype_util.base_dtype (dtype_util.base_dtype d) = dtype_util.base_dtype d.
Proof. destruct d as [[e r] | t]; reflexivity. Qed.

(* ===================================================================== *)
(** ** Categories and bounds *)

(** The tests the predicates fall back to on an object without the
    properties of a [DType] exclude each other as well. *)
Lemma numpy_kinds_exclusive (t : np_type) :
  (match np.kind t with np.kb => 1 | _ => 0 end)
  + Z.b2z (np.issubdtype_integer t)
  + Z.b2z (np.issubdtype_floating t)
  + Z.b2z (np.issubdtype_complexfloating t) <= 1.
Proof. destruct t; cbv; discriminate. Qed.

(** C8: for every descriptor the predicates [is_bool], [is_integer],
    [is_floating] and [is_complex] exclude each other pairwise, so at most
    one of them holds; on the quantized and string descriptors all four are
    false. *)
Theorem category_predicates_exclusive (d : dtype_like) :
  dtype_util.is_bool d && dtype_util.is_integer d = false /\
  dtype_util.is_bool d && dtype_util.is_floating d = false /\
  dtype_util.is_bool d && dtype_util.is_complex d = false /\
  dtype_util.is_integer d && dtype_util.is_floating d = false /\
  dtype_util.is_integer d && dtype_util.is_complex d = false /\
  dtype_util.is_floating d && dtype_util.is_complex d = false /\
  (is_exotic d = true ->
   dtype_util.is_bool d = false /\ dtype_util.is_integer d = false /\
   dtype_util.is_floating d = false /\ dtype_util.is_complex d = false).
Proof.
  destruct d as [[e r] | t]; [destruct e | destruct t];
    cbv; repeat split; congruence.
Qed.

Lemma category_predicates_exclusive_witness :
  is_exotic (TfDType (mkDType DT_QINT8 true)) = true /\
  dtype_util.is_bool (TfDType (mkDType DT_QINT8 true)) = false /\
  dtype_util.is_integer (TfDType (mkDType DT_QINT8 true)) = false /\
  dtype_util.is_floating (TfDType (mkDType DT_QINT8 true)) = false /\
  dtype_util.is_complex (TfDType (mkDType DT_QINT8 true)) = false.
Proof.
  split; [reflexivity |].
  apply (category_predicates_exclusive (TfDType (mkDType DT_QINT8 true))).
  reflexivity.
Defined.

(** C9: for an integer descriptor [max] and [min] return the exact bounds of
    the integer type of its width (two's complement, or from zero when
    unsigned), so [max int8 = 127] and [min int8 = -128]; for a descriptor
    that is neither integer nor floating nor complex, such as [bool], both
    raise an exception of the class [UnsupportedType]. *)
Theorem max_min_integer_bounds (d : dtype_like) :
  dtype_util.max (TfDType tf.int8) = Ok 127 /\
  dtype_util.min (TfDType tf.int8) = Ok (-128) /\
  (dtype_util.is_integer d = true ->
   dtype_util.max d = Ok (integer_upper d) /\
   dtype_util.min d = Ok (integer_lower d)) /\
  (dtype_util.is_integer d = false ->
   dtype_util.is_floating d = false ->
   dtype_util.is_complex d = false ->
   exists e1 e2,
     dtype_util.max d = Raise e1 /\ UnsupportedType e1 = true /\
     dtype_util.min d = Raise e2 /\ UnsupportedType e2 = true).
Proof.
  split; [reflexivity |]. split; [reflexivity |].
  destruct d as [[e r] | t]; [destruct e | destruct t];
    (split;
     [ intros H; try discriminate H; split; reflexivity
     | intros H1 H2 H3; try discriminate H1; try discriminate H2;
       try discriminate H3;
       eexists; eexists; repeat split; reflexivity ]).
Qed.

Lemma max_min_integer_bounds_witness :
  (dtype_util.is_integer (NpType np_uint16) = true /\
   dtype_util.max (NpType np_uint16) = Ok 65535 /\
   dtype_util.min (NpType np_uint16) = Ok 0) /\
  (dtype_util.is_integer (TfDType tf.bool_) = false /\
   dtype_util.is_floating (TfDType tf.bool_) = false /\
   dtype_util.is_complex (TfDType tf.bool_) = false /\
   exists e1 e2,
     dtype_util.max (TfDType tf.bool_) = Raise e1 /\
     UnsupportedType e1 = true /\
     dtype_util.min (TfDType tf.bool_) = Raise e2 /\
     UnsupportedType e2 = true).
Proof.
  split.
  - split; [reflexivity |].
    apply (proj1 (proj2 (proj2 (max_min_integer_bounds (NpType np_uint16))))).
    reflexivity.
  - split; [reflexivity |]. split; [reflexivity |]. split; [reflexivity |].
    apply (proj2 (proj2 (proj2 (max_min_integer_bounds (TfDType tf.bool_)))));
      reflexivity.
Defined.

(* ===================================================================== *)
(** ** convert_to_dtype *)

(** C3: with an explicit dtype [d] and strict checking, whenever the dtype
    [dt] that [convert_to_dtype] resolves for its (non-[None]) input is not
    base-equal to [d], the call raises the incompatible-dtypes [TypeError]
    for [d] and [dt]; and for the input [None] the call returns the explicit
    dtype, or the hint when no explicit dtype is given. *)
Theorem convert_to_dtype_explicit_check
    (cfg : config) (x : tensor_or_dtype) (d dt : dtype_like)
    (dtype_hint : option dtype_like) :
  (SKIP_DTYPE_CHECKS cfg = false ->
   x <> IsNone ->
   dtype_util.convert_to_dtype_dt x (Some d) dtype_hint = Ok dt ->
   dtype_util.base_equal d dt = false ->
   dtype_util.convert_to_dtype cfg x (Some d) dtype_hint
   = Raise (TypeError_incompatible d dt) /\
   IncompatibleTypes (TypeError_incompatible d dt) = true) /\
  dtype_util.convert_to_dtype cfg IsNone (Some d) dtype_hint = Ok (Some d) /\
  dtype_util.convert_to_dtype cfg IsNone None dtype_hint = Ok dtype_hint.
Proof.
  split; [| split; reflexivity].
  intros Hskip Hx Hdt Hne. split; [| reflexivity].
  unfold dtype_util.convert_to_dtype.
  destruct x; try congruence; rewrite Hdt; simpl;
    rewrite Hskip, Hne; reflexivity.
Qed.

Lemma convert_to_dtype_explicit_check_witness :
  SKIP_DTYPE_CHECKS default_config = false /\
  IsTensor tf.float64 <> IsNone /\
  dtype_util.convert_to_dtype_dt (IsTensor tf.float64)
    (Some (TfDType tf.float32)) None = Ok (TfDType tf.float64) /\
  dtype_util.base_equal (TfDType tf.float32) (TfDType tf.float64) = false /\
  dtype_util.convert_to_dtype default_config (IsTensor tf.float64)
    (Some (TfDType tf.float32)) None
  = Raise (TypeError_incompatible (TfDType tf.float32) (TfDType tf.float64)).
Proof.
  split; [reflexivity |]. split; [discriminate |].
  split; [reflexivity |]. split; [reflexivity |].
  apply (proj1 (convert_to_dtype_explicit_check default_config
                  (IsTensor tf.float64) (TfDType tf.float32)
                  (TfDType tf.float64) None));
    [reflexivity | discriminate | reflexivity | reflexivity].
Defined.

(** C10: when the input of [convert_to_dtype] is a NumPy array and an
    explicit dtype is given, the dtype of the array plays no part: whatever
    it is, and whether or not checks are skipped, the call returns the base
    form of the explicit dtype and raises nothing. *)
Theorem convert_to_dtype_ndarray_explicit
    (cfg : config) (array_dtype : np_type) (d : dtype_like)
    (dtype_hint : option dtype_like) :
  dtype_util.convert_to_dtype cfg (IsNdarray array_dtype) (Some d) dtype_hint
  = Ok (Some (dtype_util.base_dtype d)).
Proof.
  unfold dtype_util.convert_to_dtype. simpl.
  unfold dtype_util.base_equal. rewrite base_dtype_idempotent_aux.
  rewrite py_eq_refl. simpl. rewrite andb_false_r. reflexivity.
Qed.

(* ===================================================================== *)
(** ** _assert_same_base_type and assert_same_float_dtype *)

(** The first pass raises no mismatch error of its own. *)
Lemma first_pass_no_mismatch_error (items : list (option pyobject)) :
  forall expected n t e o,
    dtype_util.first_pass items expected
    <> Raise (ValueError_same_type n t e o).
Proof.
  induction items as [| [item |] items IH]; intros expected n t e o; simpl.
  - discriminate.
  - unfold dtype_util.item_base_dtype.
    destruct (attr_dtype item) as [[d |] |]; simpl; try discriminate.
    destruct expected as [ex |]; [| apply IH].
    destruct (py_ne ex (dtype_util.base_dtype d)); [discriminate | apply IH].
  - apply IH.
Qed.

(** When the first pass stops at a mismatch, the second pass, started from
    the same expected type, raises at an item whose base dtype differs from
    the type expected at that point. *)
Lemma second_pass_raises (items : list (option pyobject)) :
  forall expected orig e',
    dtype_util.first_pass items expected = Ok (true, e') ->
    exists item item_type exp orig',
      In (Some item) items /\
      dtype_util.item_base_dtype item = Ok item_type /\
      e' = Some exp /\
      py_ne exp item_type = true /\
      dtype_util.second_pass items expected orig
      = Raise (ValueError_same_type (dtype_util.get_name item) item_type
                 exp orig').
Proof.
  induction items as [| [item |] items IH]; intros expected orig e' H;
    simpl in H.
  - discriminate.
  - destruct (dtype_util.item_base_dtype item) as [item_type | err] eqn:Hit;
      simpl in H; [| discriminate].
    destruct expected as [ex |].
    + destruct (py_ne ex item_type) eqn:Hne.
      * injection H as H. subst e'.
        exists item, item_type, ex, (dtype_util.as_part orig).
        simpl. rewrite Hit. simpl. rewrite Hne. repeat split; auto.
      * destruct (IH _ orig _ H) as (it & ty & exp & o' & Hin & Hty & He & Hn & Hs).
        exists it, ty, exp, o'. simpl. rewrite Hit. simpl. rewrite Hne.
        repeat split; auto.
    + destruct (IH _ (Some (dtype_util.get_name item)) _ H)
        as (it & ty & exp & o' & Hin & Hty & He & Hn & Hs).
      exists it, ty, exp, o'. simpl. rewrite Hit. simpl.
      repeat split; auto.
  - destruct (IH _ orig _ H) as (it & ty & exp & o' & Hin & Hty & He & Hn & Hs).
    exists it, ty, exp, o'. simpl. repeat split; auto.
Qed.

(** C5: in [_assert_same_base_type] the mismatch error comes from the second
    pass only, and the second pass runs only after the first pass has found a
    mismatch: when the first pass finds none, the function returns the
    expected type; when it finds one, the second pass raises the error that
    names an offending item, its type and the expected type, so it never
    falls through to the return that follows it. *)
Theorem assert_same_base_type_two_passes
    (items : list (option pyobject)) (expected : option dtype_like) :
  (forall e',
      dtype_util.first_pass items expected = Ok (false, e') ->
      dtype_util._assert_same_base_type items expected = Ok e') /\
  (forall n t e o,
      dtype_util._assert_same_base_type items expected
      = Raise (ValueError_same_type n t e o) ->
      exists e', dtype_util.first_pass items expected = Ok (true, e')) /\
  (forall e',
      dtype_util.first_pass items expected = Ok (true, e') ->
      (exists item item_type exp orig,
          In (Some item) items /\
          dtype_util.item_base_dtype item = Ok item_type /\
          e' = Some exp /\
          py_ne exp item_type = true /\
          dtype_util.second_pass items expected None
          = Raise (ValueError_same_type (dtype_util.get_name item) item_type
                     exp orig) /\
          dtype_util._assert_same_base_type items expected
          = Raise (ValueError_same_type (dtype_util.get_name item) item_type
                     exp orig)) /\
      (forall v, dtype_util.second_pass items expected None <> Ok v)).
Proof.
  repeat split.
  - intros e' H. unfold dtype_util._assert_same_base_type.
    rewrite H. reflexivity.
  - intros n t e o H. unfold dtype_util._assert_same_base_type in H.
    destruct (dtype_util.first_pass items expected) as [[[|] e'] | err] eqn:Hf;
      simpl in H.
    + eauto.
    + discriminate.
    + injection H as H. subst err.
      exfalso. exact (first_pass_no_mismatch_error _ _ _ _ _ _ Hf).
  - destruct (second_pass_raises items expected None e' H)
      as (it & ty & exp & o' & Hin & Hty & He & Hn & Hs).
    exists it, ty, exp, o'. repeat split; auto.
    unfold dtype_util._assert_same_base_type. rewrite H. simpl. exact Hs.
  - intros v Hv.
    destruct (second_pass_raises items expected None e' H)
      as (it & ty & exp & o' & Hin & Hty & He & Hn & Hs).
    congruence.
Qed.

Lemma assert_same_base_type_two_passes_witness :
  let items := [Some (tensor "a" tf.float32); None;
                Some (tensor "b" tf.float64)] in
  dtype_util.first_pass items None = Ok (true, Some (TfDType tf.float32)) /\
  (exists item item_type exp orig,
      In (Some item) items /\
      dtype_util.item_base_dtype item = Ok item_type /\
      Some (TfDType tf.float32) = Some exp /\
      py_ne exp item_type = true /\
      dtype_util.second_pass items None None
      = Raise (ValueError_same_type (dtype_util.get_name item) item_type
                 exp orig) /\
      dtype_util._assert_same_base_type items None
      = Raise (ValueError_same_type (dtype_util.get_name item) item_type
                 exp orig)) /\
  (forall v, dtype_util.second_pass items None None <> Ok v).
Proof.
  intros items. split; [reflexivity |].
  apply (proj2 (proj2 (assert_same_base_type_two_passes items None))).
  reflexivity.
Defined.

(** C4: [assert_same_float_dtype] returns [tf.float32] when it is given no
    tensors and no dtype, and raises the not-floating [ValueError] whenever
    the type it has resolved is not a floating one, as it does for an empty
    list of tensors and the explicit dtype [int32]. *)
Theorem assert_same_float_dtype_default_and_check
    (tensors : option (list (option pyobject)))
    (dtype : option dtype_like) (d : dtype_like) :
  dtype_util.assert_same_float_dtype None None = Ok (TfDType tf.float32) /\
  dtype_util.assert_same_float_dtype (Some []) None
  = Ok (TfDType tf.float32) /\
  (dtype_util.resolved_dtype tensors dtype = Ok (Some d) ->
   dtype_util.is_floating d = false ->
   dtype_util.assert_same_float_dtype tensors dtype
   = Raise (ValueError_not_floating d) /\
   NotFloatingPoint (ValueError_not_floating d) = true) /\
  dtype_util.assert_same_float_dtype (Some []) (Some (TfDType tf.int32))
  = Raise (ValueError_not_floating (TfDType tf.int32)).
Proof.
  split; [reflexivity |]. split; [reflexivity |]. split; [| reflexivity].
  intros Hres Hfl. split; [| reflexivity].
  unfold dtype_util.assert_same_float_dtype.
  rewrite Hres. simpl. rewrite Hfl. reflexivity.
Qed.

Lemma assert_same_float_dtype_default_and_check_witness :
  let tensors := Some [Some (tensor "n" tf.int32); None;
                       Some (tensor "m" (mkDType DT_INT32 true))] in
  dtype_util.resolved_dtype tensors None = Ok (Some (TfDType tf.int32)) /\
  dtype_util.is_floating (TfDType tf.int32) = false /\
  dtype_util.assert_same_float_dtype tensors None
  = Raise (ValueError_not_floating (TfDType tf.int32)).
Proof.
  intros tensors. split; [reflexivity |]. split; [reflexivity |].
  apply (proj1 (proj2 (proj2
           (assert_same_float_dtype_default_and_check tensors None
              (TfDType tf.int32))))) ;
    reflexivity.
Defined.

(* ===================================================================== *)
(** ** common_dtype *)

Section CommonDtypeLoop.

Variable cfg : config.

Let body := dtype_util.common_dtype_body cfg.

Lemma seen_entry_None (a : pyobject) :
  dtype_util.dtype_of a = None -> seen_entry a = None.
Proof. unfold seen_entry. intros ->. reflexivity. Qed.

Lemma seen_entry_Some (a : pyobject) (d : dtype_like) :
  dtype_util.dtype_of a = Some d ->
  seen_entry a = Some (dtype_util.as_numpy_dtype d).
Proof. unfold seen_entry. intros ->. reflexivity. Qed.

Lemma firstn_snoc (vals : list pyobject) :
  forall k c, nth_error vals k = Some c ->
              firstn (S k) vals = firstn k vals ++ [c].
Proof.
  induction vals as [| a vals IH]; intros [| k] c H; simpl in H.
  - discriminate.
  - discriminate.
  - injection H as ->. reflexivity.
  - simpl. rewrite <- (IH k c H). reflexivity.
Qed.

(** Values without a dtype leave the running dtype as it is, in either
    mode. *)
Lemma loop_no_descriptor (vals : list pyobject) :
  forall st,
    (forall a, In a vals -> dtype_util.dtype_of a = None) ->
    for_each body vals st
    = Ok (dtype_util.mkState (dtype_util.st_dtype st)
            (dtype_util.st_seen st ++ map seen_entry vals)).
Proof.
  induction vals as [| a vals IH]; intros st H; simpl.
  - rewrite app_nil_r. destruct st; reflexivity.
  - unfold body at 1, dtype_util.common_dtype_body.
    rewrite (H a (or_introl eq_refl)). simpl.
    rewrite IH by (intros; apply H; right; assumption). simpl.
    rewrite (seen_entry_None a (H a (or_introl eq_refl))).
    rewrite <- app_assoc. reflexivity.
Qed.

(** The loop in strict mode: it ends normally only when every dtype met
    equals the running one, and otherwise raises at the first dtype that
    differs from it, with the entries of all values up to that one. *)
Lemma strict_loop (Hskip : SKIP_DTYPE_CHECKS cfg = false)
    (vals : list pyobject) :
  forall st,
    seen_running st ->
    (exists st',
        for_each body vals st = Ok st' /\
        dtype_util.st_seen st'
        = dtype_util.st_seen st ++ map seen_entry vals /\
        dtype_util.st_dtype st' = running st vals /\
        (forall c dt, In c vals -> seen_entry c = Some dt ->
                      exists d, dtype_util.st_dtype st' = Some d /\
                                py_ne d dt = false))
    \/
    (exists dtype dt k c,
        for_each body vals st
        = Raise (TypeError_incompatible_seen dtype dt
                   (dtype_util.st_seen st
                    ++ map seen_entry (firstn (S k) vals))) /\
        nth_error vals k = Some c /\
        seen_entry c = Some dt /\
        py_ne dtype dt = true /\
        running st vals = Some dtype /\
        In (Some dtype)
           (dtype_util.st_seen st ++ map seen_entry (firstn k vals))).
Proof.
  induction vals as [| a vals IH]; intros [dtype0 seen0] Hinv.
  - left. exists (dtype_util.mkState dtype0 seen0). simpl.
    rewrite app_nil_r. unfold running. simpl.
    repeat split; [destruct dtype0; reflexivity | contradiction].
  - cbn [for_each]. unfold body at 1 3, dtype_util.common_dtype_body.
    cbn [dtype_util.st_dtype dtype_util.st_seen].
    destruct (dtype_util.dtype_of a) as [a_dtype |] eqn:Ha.
    + pose proof (seen_entry_Some a a_dtype Ha) as Hentry.
      set (dt := dtype_util.as_numpy_dtype a_dtype) in *.
      destruct dtype0 as [dtype |].
      * destruct (py_ne dtype dt) eqn:Hne.
        -- rewrite Hskip. right. exists dtype, dt, 0%nat, a.
           cbn [firstn map nth_error]. rewrite Hentry, app_nil_r.
           repeat split; auto.
        -- cbn [bind].
           destruct (IH (dtype_util.mkState (Some dtype)
                           (seen0 ++ [Some dt])))
             as [(st' & Hrun & Hseen & Hdt & Hall)
                | (d1 & d2 & k & c & Hrun & Hk & Hc & Hn & Hr & Hin)].
           { intros d Hd. cbn [dtype_util.st_dtype dtype_util.st_seen] in *.
             apply in_or_app. left. apply Hinv. exact Hd. }
           ++ left. exists st'.
              cbn [dtype_util.st_dtype dtype_util.st_seen map] in *.
              rewrite Hentry, Hseen, <- app_assoc.
              repeat split; auto.
              intros c dt' [<- | Hc] Hdt'.
              ** exists dtype. split; [exact Hdt | congruence].
              ** eauto.
           ++ right. exists d1, d2, (S k), c.
              cbn [dtype_util.st_dtype dtype_util.st_seen] in *.
              rewrite Hrun, !firstn_cons. cbn [map nth_error].
              rewrite Hentry, <- !app_assoc.
              repeat split; auto.
              rewrite <- app_assoc in Hin. exact Hin.
      * cbn [bind].
        destruct (IH (dtype_util.mkState (Some dt) (seen0 ++ [Some dt])))
          as [(st' & Hrun & Hseen & Hdt & Hall)
             | (d1 & d2 & k & c & Hrun & Hk & Hc & Hn & Hr & Hin)].
        { intros d Hd. cbn [dtype_util.st_dtype dtype_util.st_seen] in *.
          apply in_or_app. right. left. exact Hd. }
        -- left. exists st'. unfold running in *.
           cbn [dtype_util.st_dtype dtype_util.st_seen map
                  first_descriptor] in *.
           rewrite Hentry, Hseen, <- app_assoc.
           repeat split; auto.
           intros c dt' [<- | Hc] Hdt'.
           ++ exists dt. split; [exact Hdt |].
              replace dt' with dt by congruence. apply py_ne_irrefl.
           ++ eauto.
        -- right. exists d1, d2, (S k), c. unfold running in *.
           cbn [dtype_util.st_dtype dtype_util.st_seen first_descriptor]
             in *.
           rewrite Hrun, !firstn_cons. cbn [map nth_error].
           rewrite Hentry, <- !app_assoc.
           repeat split; auto.
           rewrite <- app_assoc in Hin. exact Hin.
    + pose proof (seen_entry_None a Ha) as Hentry. cbn [bind].
      destruct (IH (dtype_util.mkState dtype0 (seen0 ++ [None])))
        as [(st' & Hrun & Hseen & Hdt & Hall)
           | (d1 & d2 & k & c & Hrun & Hk & Hc & Hn & Hr & Hin)].
      { intros d Hd. cbn [dtype_util.st_dtype dtype_util.st_seen] in *.
        apply in_or_app. left. apply Hinv. exact Hd. }
      * left. exists st'. unfold running in *.
        cbn [dtype_util.st_dtype dtype_util.st_seen map first_descriptor]
          in *.
        rewrite Hentry, Hseen, <- app_assoc.
        repeat split; auto.
        intros c dt' [<- | Hc] Hdt'; [congruence | eauto].
      * right. exists d1, d2, (S k), c. unfold running in *.
        cbn [dtype_util.st_dtype dtype_util.st_seen first_descriptor] in *.
        rewrite Hrun, !firstn_cons. cbn [map nth_error].
        rewrite Hentry, <- !app_assoc.
        repeat split; auto.
        rewrite <- app_assoc in Hin. exact Hin.
Qed.

End CommonDtypeLoop.

(** C6: for every hint, [None] included, and in either mode,
    [common_dtype] returns the hint unchanged on the empty collection and on
    every collection in which no value carries a dtype. *)
Theorem common_dtype_returns_hint
    (cfg : config) (args_list : nest) (dtype_hint : option dtype_like) :
  dtype_util.common_dtype cfg (Nested []) dtype_hint = Ok dtype_hint /\
  ((forall a, In a (dtype_util.flatten args_list) ->
              dtype_util.dtype_of a = None) ->
   dtype_util.common_dtype cfg args_list dtype_hint = Ok dtype_hint).
Proof.
  split; [reflexivity |].
  intros H. unfold dtype_util.common_dtype.
  rewrite (loop_no_descriptor cfg _ _ H). reflexivity.
Qed.

Lemma common_dtype_returns_hint_witness :
  let args_list :=
    Nested [Leaf (scalar "1."); Nested [Leaf (scalar "2"); Nested []];
            Leaf {| attr_dtype := Some None; attr_name := Some "m"%string;
                    str := "m" |}] in
  (forall a, In a (dtype_util.flatten args_list) ->
             dtype_util.dtype_of a = None) /\
  dtype_util.common_dtype skip_config args_list (Some (NpType np_int16))
  = Ok (Some (NpType np_int16)).
Proof.
  intros args_list.
  assert (H : forall a, In a (dtype_util.flatten args_list) ->
                        dtype_util.dtype_of a = None).
  { simpl. intros a [<- | [<- | [<- | []]]]; reflexivity. }
  split; [exact H |].
  exact (proj2 (common_dtype_returns_hint skip_config args_list
                  (Some (NpType np_int16))) H).
Defined.

Lemma base_unequal_numpy_differ (da db : dtype_like) :
  dtype_util.base_equal da db = false ->
  py_ne (dtype_util.as_numpy_dtype da) (dtype_util.as_numpy_dtype db) = true.
Proof.
  intros H.
  destruct (py_ne (dtype_util.as_numpy_dtype da)
              (dtype_util.as_numpy_dtype db)) eqn:Hne; [reflexivity |].
  rewrite (same_numpy_base_equal da db) in H; [discriminate |].
  rewrite !as_numpy_dtype_NpType in *.
  f_equal. symmetry.
  eapply py_eq_numpy_unique; [exact Hne | apply py_ne_irrefl].
Qed.

(** C1: in strict mode, for every collection in which two values carry
    dtypes that are not base-equal, [common_dtype] raises the
    incompatible-dtypes [TypeError].  Its arguments are the running dtype
    (the NumPy form of the first dtype of the collection), the first dtype
    that differs from it, and the list [seen], which holds, in the order of
    the collection, the entry of every value up to and including the
    offending one, and so both dtypes of the conflict.  When the collection
    is just the two values, these are their two dtypes. *)
Theorem common_dtype_strict_raises
    (cfg : config) (args_list : nest) (dtype_hint : option dtype_like)
    (a b : pyobject) (da db : dtype_like) :
  SKIP_DTYPE_CHECKS cfg = false ->
  In a (dtype_util.flatten args_list) ->
  In b (dtype_util.flatten args_list) ->
  dtype_util.dtype_of a = Some da ->
  dtype_util.dtype_of b = Some db ->
  dtype_util.base_equal da db = false ->
  (exists dtype dt k c seen,
      dtype_util.common_dtype cfg args_list dtype_hint
      = Raise (TypeError_incompatible_seen dtype dt seen) /\
      IncompatibleTypes (TypeError_incompatible_seen dtype dt seen) = true /\
      seen = map seen_entry (firstn (S k) (dtype_util.flatten args_list)) /\
      first_descriptor (dtype_util.flatten args_list) = Some dtype /\
      nth_error (dtype_util.flatten args_list) k = Some c /\
      seen_entry c = Some dt /\
      py_ne dtype dt = true /\
      In (Some dtype) seen /\ In (Some dt) seen) /\
  (dtype_util.flatten args_list = [a; b] ->
   dtype_util.common_dtype cfg args_list dtype_hint
   = Raise (TypeError_incompatible_seen
              (dtype_util.as_numpy_dtype da) (dtype_util.as_numpy_dtype db)
              [Some (dtype_util.as_numpy_dtype da);
               Some (dtype_util.as_numpy_dtype db)])).
Proof.
  intros Hskip Hia Hib Hda Hdb Hne. split.
  - unfold dtype_util.common_dtype.
    destruct (strict_loop cfg Hskip (dtype_util.flatten args_list)
                (dtype_util.mkState None []))
      as [(st' & Hrun & Hseen & Hdt & Hall)
         | (d1 & d2 & k & c & Hrun & Hk & Hc & Hn & Hr & Hin)].
    { intros d Hd. discriminate Hd. }
    + exfalso.
      destruct (Hall a _ Hia (seen_entry_Some a da Hda)) as (d & Hd & Hea).
      destruct (Hall b _ Hib (seen_entry_Some b db Hdb)) as (d' & Hd' & Heb).
      assert (d' = d) by congruence. subst d'.
      rewrite (same_numpy_base_equal da db) in Hne; [discriminate |].
      rewrite !as_numpy_dtype_NpType in *. f_equal.
      eapply py_eq_numpy_unique; eassumption.
    + exists d1, d2, k, c,
        (map seen_entry (firstn (S k) (dtype_util.flatten args_list))).
      rewrite Hrun. cbn [dtype_util.st_seen app] in *.
      repeat split; auto.
      * rewrite (firstn_snoc _ _ _ Hk), map_app.
        apply in_or_app. left. exact Hin.
      * rewrite (firstn_snoc _ _ _ Hk), map_app.
        apply in_or_app. right. simpl. left. exact Hc.
  - intros Hflat. unfold dtype_util.common_dtype. rewrite Hflat.
    cbn [for_each]. unfold dtype_util.common_dtype_body at 1.
    rewrite Hda. cbn [dtype_util.st_dtype dtype_util.st_seen bind app].
    unfold dtype_util.common_dtype_body.
    rewrite Hdb. cbn [dtype_util.st_dtype dtype_util.st_seen bind app].
    rewrite (base_unequal_numpy_differ da db Hne), Hskip. reflexivity.
Qed.

Lemma common_dtype_strict_raises_witness :
  let x := tensor "x" tf.float32 in
  let y := tensor "y" tf.float64 in
  SKIP_DTYPE_CHECKS default_config = false /\
  dtype_util.base_equal (TfDType tf.float32) (TfDType tf.float64) = false /\
  dtype_util.common_dtype default_config (Nested [Leaf x; Leaf y]) None
  = Raise (TypeError_incompatible_seen
             (NpType np_float32) (NpType np_float64)
             [Some (NpType np_float32); Some (NpType np_float64)]).
Proof.
  intros x y. split; [reflexivity |]. split; [reflexivity |].
  apply (proj2 (common_dtype_strict_raises default_config
                  (Nested [Leaf x; Leaf y]) None x y
                  (TfDType tf.float32) (TfDType tf.float64)
                  eq_refl (or_introl eq_refl) (or_intror (or_introl eq_refl))
                  eq_refl eq_refl eq_refl)).
  reflexivity.
Defined.

(* ===================================================================== *)
(** ** common_dtype with the checks skipped *)

Lemma ones_add_dtype_error (x y : dtype_like) (e : exception) :
  dtype_util.ones_add_dtype x y = Raise e -> IncompatibleTypes e = false.
Proof.
  unfold dtype_util.ones_add_dtype, np.ones_add.
  destruct x as [dx | s], y as [dy | t]; simpl;
    try (intros H; injection H as <-; reflexivity).
  destruct (np.as_numeric s), (np.as_numeric t), (np.kind s), (np.kind t);
    simpl; intros H; try discriminate H; injection H as <-; reflexivity.
Qed.

Lemma as_numpy_numpy_type (d : dtype_like) :
  dtype_util.as_numpy_dtype d = NpType (numpy_type d).
Proof. destruct d; reflexivity. Qed.

Lemma py_ne_NpType_beq (s t : np_type) :
  py_ne (NpType s) (NpType t) = negb (np_type_beq s t).
Proof. reflexivity. Qed.

(** The sum of arrays of two types that are not structured is defined, and
    its type is not structured. *)
Lemma ones_add_unstructured (s t : np_type) :
  np.kind s <> np.kV -> np.kind t <> np.kV ->
  exists u, np.ones_add s t = Ok u /\ np.kind u <> np.kV.
Proof.
  intros Hs Ht.
  destruct s; try (exfalso; apply Hs; reflexivity);
    destruct t; try (exfalso; apply Ht; reflexivity);
    eexists; (split; [reflexivity | discriminate]).
Qed.

Lemma promote_from_unstructured (types : list np_type) :
  forall s,
    np.kind s <> np.kV ->
    Forall (fun t => np.kind t <> np.kV) types ->
    exists u, promote_from s types = Ok u.
Proof.
  induction types as [| t types IH]; intros s Hs Hall; simpl.
  - eauto.
  - inversion Hall as [| t' types' Ht Hrest]; subst.
    destruct (np_type_beq s t); [apply IH; assumption |].
    destruct (ones_add_unstructured s t Hs Ht) as (u & -> & Hu). simpl.
    apply IH; assumption.
Qed.

Lemma numpy_type_unstructured (d : dtype_like) :
  is_quantized d = false -> np.kind (numpy_type d) <> np.kV.
Proof.
  destruct d as [[e r] | t]; [destruct e | destruct t];
    cbv; intros H; first [discriminate H | discriminate].
Qed.

Lemma carried_types_unstructured (vals : list pyobject) :
  (forall a d, In a vals -> dtype_util.dtype_of a = Some d ->
               is_quantized d = false) ->
  Forall (fun t => np.kind t <> np.kV) (carried_types vals).
Proof.
  induction vals as [| a vals IH]; intros H; simpl; [constructor |].
  apply Forall_app. split.
  - destruct (dtype_util.dtype_of a) as [d |] eqn:Ha; [| constructor].
    constructor; [| constructor].
    apply numpy_type_unstructured. exact (H a d (or_introl eq_refl) Ha).
  - apply IH. intros b d Hin. apply H. right. exact Hin.
Qed.

Section SkipLoop.

Variable cfg : config.
Hypothesis Hskip : SKIP_DTYPE_CHECKS cfg = true.

Lemma skip_loop_error (vals : list pyobject) :
  forall st e,
    for_each (dtype_util.common_dtype_body cfg) vals st = Raise e ->
    IncompatibleTypes e = false.
Proof.
  induction vals as [| a vals IH]; intros st e; cbn [for_each].
  - discriminate.
  - destruct (dtype_util.common_dtype_body cfg st a) as [st1 | e1] eqn:Hb;
      cbn [bind].
    + apply IH.
    + intros H. injection H as <-.
      unfold dtype_util.common_dtype_body in Hb. rewrite Hskip in Hb.
      destruct (dtype_util.dtype_of a) as [a_dtype |]; [| discriminate].
      destruct (dtype_util.st_dtype st) as [dtype |]; [| discriminate].
      destruct (py_ne dtype (dtype_util.as_numpy_dtype a_dtype));
        [| discriminate].
      destruct (dtype_util.ones_add_dtype dtype
                  (dtype_util.as_numpy_dtype a_dtype)) eqn:Hadd;
        [discriminate |].
      injection Hb as <-. exact (ones_add_dtype_error _ _ _ Hadd).
Qed.

(** One iteration that meets a dtype, from a running NumPy type. *)
Lemma skip_body_promotes (st : dtype_util.common_state) (a : pyobject)
    (a_dtype : dtype_like) (s : np_type) :
  dtype_util.dtype_of a = Some a_dtype ->
  dtype_util.st_dtype st = Some (NpType s) ->
  dtype_util.common_dtype_body cfg st a
  = if np_type_beq s (numpy_type a_dtype)
    then Ok (dtype_util.mkState (Some (NpType s))
               (dtype_util.st_seen st
                ++ [Some (dtype_util.as_numpy_dtype a_dtype)]))
    else promoted <- np.ones_add s (numpy_type a_dtype) ;;
         Ok (dtype_util.mkState (Some (NpType promoted))
               (dtype_util.st_seen st
                ++ [Some (dtype_util.as_numpy_dtype a_dtype)])).
Proof.
  intros Ha Hd. unfold dtype_util.common_dtype_body.
  rewrite Ha, Hd, Hskip, (as_numpy_numpy_type a_dtype), py_ne_NpType_beq.
  destruct (np_type_beq s (numpy_type a_dtype)); simpl; [reflexivity |].
  unfold dtype_util.ones_add_dtype. simpl.
  destruct (np.ones_add s (numpy_type a_dtype)); reflexivity.
Qed.

(** The loop, from a running NumPy type, promotes from left to right. *)
Lemma skip_loop_promotes_from (vals : list pyobject) :
  forall st s,
    dtype_util.st_dtype st = Some (NpType s) ->
    (st' <- for_each (dtype_util.common_dtype_body cfg) vals st ;;
     Ok (dtype_util.st_dtype st'))
    = (promoted <- promote_from s (carried_types vals) ;;
       Ok (Some (NpType promoted))).
Proof.
  induction vals as [| a vals IH]; intros st s Hd; cbn [for_each].
  - simpl. rewrite Hd. reflexivity.
  - unfold carried_types. cbn [flat_map]. fold (carried_types vals).
    destruct (dtype_util.dtype_of a) as [a_dtype |] eqn:Ha.
    + rewrite (skip_body_promotes st a a_dtype s Ha Hd).
      cbn [app promote_from].
      destruct (np_type_beq s (numpy_type a_dtype)).
      * cbn [bind]. apply IH. reflexivity.
      * destruct (np.ones_add s (numpy_type a_dtype)) as [u | e];
          cbn [bind]; [apply IH |]; reflexivity.
    + unfold dtype_util.common_dtype_body at 1. rewrite Ha.
      cbn [bind app]. apply IH. exact Hd.
Qed.

Lemma skip_loop_promotes_all (vals : list pyobject) :
  forall st,
    dtype_util.st_dtype st = None ->
    (st' <- for_each (dtype_util.common_dtype_body cfg) vals st ;;
     Ok (dtype_util.st_dtype st'))
    = (r <- promote_all (carried_types vals) ;; Ok (option_map NpType r)).
Proof.
  induction vals as [| a vals IH]; intros st Hd; cbn [for_each].
  - simpl. rewrite Hd. reflexivity.
  - unfold carried_types. cbn [flat_map]. fold (carried_types vals).
    unfold dtype_util.common_dtype_body at 1. rewrite Hd.
    destruct (dtype_util.dtype_of a) as [a_dtype |] eqn:Ha.
    + rewrite (as_numpy_numpy_type a_dtype). cbn [bind app promote_all].
      rewrite (skip_loop_promotes_from vals
                 (dtype_util.mkState (Some (NpType (numpy_type a_dtype))) _)
                 (numpy_type a_dtype) eq_refl).
      destruct (promote_from (numpy_type a_dtype) (carried_types vals));
        reflexivity.
    + cbn [bind app]. apply IH. reflexivity.
Qed.

Lemma common_dtype_promote_all (args_list : nest)
    (dtype_hint : option dtype_like) :
  dtype_util.common_dtype cfg args_list dtype_hint
  = (r <- promote_all (carried_types (dtype_util.flatten args_list)) ;;
     Ok (match r with
         | Some promoted => Some (dtype_util.base_dtype (NpType promoted))
         | None => dtype_hint
         end)).
Proof.
  unfold dtype_util.common_dtype.
  pose proof (skip_loop_promotes_all (dtype_util.flatten args_list)
                (dtype_util.mkState None []) eq_refl) as H.
  destruct (for_each (dtype_util.common_dtype_body cfg)
              (dtype_util.flatten args_list) (dtype_util.mkState None []))
    as [st' | e],
    (promote_all (carried_types (dtype_util.flatten args_list)))
    as [r | e']; cbn [bind] in *; try discriminate H.
  - injection H as ->. destruct r; reflexivity.
  - injection H as ->. reflexivity.
Qed.

End SkipLoop.

(** C2, as amended: with [SKIP_DTYPE_CHECKS] set, [common_dtype] never raises
    the incompatible-dtypes error.  An iteration that meets a dtype different
    from the running one replaces the running dtype by the dtype of the sum
    of two length-2 arrays of ones of the two types, and raises only what
    that sum raises; so the result of the call is the promotion, from left to
    right, of the dtypes the values carry.  The call raises nothing when no
    dtype is quantized, and for a [float32] and a [float64] value, in either
    order, it returns [float64]. *)
Theorem common_dtype_skip_promotes
    (cfg : config) (Hskip : SKIP_DTYPE_CHECKS cfg = true) :
  (forall st a a_dtype s,
      dtype_util.dtype_of a = Some a_dtype ->
      dtype_util.st_dtype st = Some (NpType s) ->
      numpy_type a_dtype <> s ->
      dtype_util.common_dtype_body cfg st a
      = (promoted <- np.ones_add s (numpy_type a_dtype) ;;
         Ok (dtype_util.mkState (Some (NpType promoted))
               (dtype_util.st_seen st
                ++ [Some (dtype_util.as_numpy_dtype a_dtype)])))) /\
  (forall args_list dtype_hint,
      dtype_util.common_dtype cfg args_list dtype_hint
      = (r <- promote_all (carried_types (dtype_util.flatten args_list)) ;;
         Ok (match r with
             | Some promoted =>
                 Some (dtype_util.base_dtype (NpType promoted))
             | None => dtype_hint
             end))) /\
  (forall args_list dtype_hint e,
      dtype_util.common_dtype cfg args_list dtype_hint = Raise e ->
      IncompatibleTypes e = false) /\
  (forall args_list dtype_hint,
      (forall a d, In a (dtype_util.flatten args_list) ->
                   dtype_util.dtype_of a = Some d ->
                   is_quantized d = false) ->
      exists r, dtype_util.common_dtype cfg args_list dtype_hint = Ok r) /\
  (forall v1 v2 d1 d2 dtype_hint,
      dtype_util.dtype_of v1 = Some d1 ->
      dtype_util.dtype_of v2 = Some d2 ->
      numpy_type d1 = np_float32 ->
      numpy_type d2 = np_float64 ->
      dtype_util.common_dtype cfg (Nested [Leaf v1; Leaf v2]) dtype_hint
      = Ok (Some (TfDType tf.float64)) /\
      dtype_util.common_dtype cfg (Nested [Leaf v2; Leaf v1]) dtype_hint
      = Ok (Some (TfDType tf.float64))).
Proof.
  split; [| split; [| split; [| split]]].
  - intros st a a_dtype s Ha Hd Hne.
    rewrite (skip_body_promotes cfg Hskip st a a_dtype s Ha Hd).
    destruct (np_type_beq s (numpy_type a_dtype)) eqn:Hb; [| reflexivity].
    apply np_type_beq_eq in Hb. congruence.
  - apply common_dtype_promote_all. exact Hskip.
  - intros args_list dtype_hint e. unfold dtype_util.common_dtype.
    destruct (for_each (dtype_util.common_dtype_body cfg)
                (dtype_util.flatten args_list) (dtype_util.mkState None []))
      as [st | e'] eqn:Hrun; cbn [bind].
    + destruct (dtype_util.st_dtype st); discriminate.
    + intros H. injection H as <-.
      exact (skip_loop_error cfg Hskip _ _ _ Hrun).
  - intros args_list dtype_hint Hall.
    rewrite (common_dtype_promote_all cfg Hskip).
    pose proof (carried_types_unstructured _ Hall) as Hun.
    destruct (carried_types (dtype_util.flatten args_list)) as [| t types];
      cbn [promote_all bind]; [eauto |].
    inversion Hun as [| t' types' Ht Hrest]; subst.
    destruct (promote_from_unstructured types t Ht Hrest) as (u & ->).
    cbn [bind]. eauto.
  - intros v1 v2 d1 d2 dtype_hint Hv1 Hv2 Hd1 Hd2.
    rewrite !(common_dtype_promote_all cfg Hskip).
    unfold carried_types. simpl. rewrite Hv1, Hv2, Hd1, Hd2.
    split; reflexivity.
Qed.

Lemma common_dtype_skip_promotes_witness :
  let x := tensor "x" tf.float32 in
  let y := tensor "y" tf.float64 in
  SKIP_DTYPE_CHECKS skip_config = true /\
  dtype_util.common_dtype_body skip_config
    (dtype_util.mkState (Some (NpType np_float64))
       [Some (NpType np_float64)]) x
  = Ok (dtype_util.mkState (Some (NpType np_float64))
          [Some (NpType np_float64); Some (NpType np_float32)]) /\
  dtype_util.common_dtype skip_config (Nested [Leaf x; Leaf y]) None
  = Ok (Some (TfDType tf.float64)) /\
  dtype_util.common_dtype skip_config (Nested [Leaf y; Leaf x]) None
  = Ok (Some (TfDType tf.float64)).
Proof.
  intros x y. split; [reflexivity |]. split.
  - apply (proj1 (common_dtype_skip_promotes skip_config eq_refl)
             (dtype_util.mkState (Some (NpType np_float64))
                [Some (NpType np_float64)])
             x (TfDType tf.float32) np_float64);
      [reflexivity | reflexivity | discriminate].
  - apply (proj2 (proj2 (proj2 (proj2
             (common_dtype_skip_promotes skip_config eq_refl))))
             x y (TfDType tf.float32) (TfDType tf.float64) None);
      reflexivity.
Defined.

(** C2, as stated, fails: with the checks skipped, a quantized tensor
    followed by a [float32] tensor makes [common_dtype] raise, with the error
    of NumPy's [add]. *)
Lemma common_dtype_skip_raises_on_quantized :
  SKIP_DTYPE_CHECKS skip_config = true /\
  dtype_util.base_equal (TfDType (mkDType DT_QINT8 false))
    (TfDType tf.float32) = false /\
  dtype_util.common_dtype skip_config
    (Nested [Leaf (tensor "q" (mkDType DT_QINT8 false));
             Leaf (tensor "x" tf.float32)])
    None
  = Raise (UFuncTypeError np_qint8 np_float32) /\
  ~ (exists r,
        dtype_util.common_dtype skip_config
          (Nested [Leaf (tensor "q" (mkDType DT_QINT8 false));
                   Leaf (tensor "x" tf.float32)])
          None
        = Ok r).
Proof.
  split; [reflexivity |]. split; [reflexivity |]. split; [reflexivity |].
  intros (r & H). discriminate H.
Qed.

(* ===================================================================== *)
(** ** Further properties: base equality *)

Lemma py_ne_NpType (s t : np_type) :
  py_ne (NpType s) (NpType t) = false -> s = t.
Proof.
  unfold py_ne. simpl. intros H. apply negb_false_iff in H.
  apply np_type_beq_eq. exact H.
Qed.

Lemma base_equal_same_numpy (a b : dtype_like) :
  dtype_util.base_equal a b = true ->
  dtype_util.as_numpy_dtype a = dtype_util.as_numpy_dtype b.
Proof.
  rewrite !as_numpy_dtype_NpType.
  unfold dtype_util.base_equal, dtype_util.base_dtype.
  destruct a as [[ea ra] | ta], b as [[eb rb] | tb]; simpl;
    unfold tf.DType_eq, DType_eqb; simpl; intros H;
    apply andb_prop in H; destruct H as [H _];
    apply type_enum_beq_eq in H; rewrite H; reflexivity.
Qed.

Lemma base_dtype_as_numpy (d : dtype_like) :
  dtype_util.base_dtype (dtype_util.as_numpy_dtype d)
  = dtype_util.base_dtype d.
Proof.
  destruct d as [[e r] | t];
    unfold dtype_util.base_dtype, dtype_util.as_numpy_dtype,
      tf.as_numpy_dtype, tf.base_dtype;
    simpl; rewrite ?TF_TO_NP_TO_TF; reflexivity.
Qed.

Lemma base_equal_trans_aux (a b c : dtype_like) :
  dtype_util.base_equal a b = true -> dtype_util.base_equal b c = true ->
  dtype_util.base_equal a c = true.
Proof.
  intros Hab Hbc. apply same_numpy_base_equal.
  rewrite (base_equal_same_numpy a b Hab). apply base_equal_same_numpy.
  exact Hbc.
Qed.

(** X1: [base_equal] is an equivalence on dtypes: reflexive, symmetric and
    transitive. *)
Theorem base_equal_equivalence (a b c : dtype_like) :
  dtype_util.base_equal a a = true /\
  dtype_util.base_equal a b = dtype_util.base_equal b a /\
  (dtype_util.base_equal a b = true -> dtype_util.base_equal b c = true ->
   dtype_util.base_equal a c = true).
Proof.
  split; [apply py_eq_refl |]. split; [apply base_equal_sym |].
  apply base_equal_trans_aux.
Qed.

Lemma base_equal_equivalence_witness :
  dtype_util.base_equal (TfDType tf.float32_ref) (NpType np_float32) = true /\
  dtype_util.base_equal (NpType np_float32) (TfDType tf.float32) = true /\
  dtype_util.base_equal (TfDType tf.float32_ref) (TfDType tf.float32) = true.
Proof.
  split; [reflexivity |]. split; [reflexivity |].
  apply (proj2 (proj2 (base_equal_equivalence (TfDType tf.float32_ref)
                         (NpType np_float32) (TfDType tf.float32))));
    reflexivity.
Defined.

(** X2: two dtypes are base-equal exactly when they have the same NumPy
    form; in particular a dtype is base-equal to its base form and to its
    NumPy form, and the base form of the NumPy form is the base form. *)
Theorem base_equal_iff_same_numpy (a b : dtype_like) :
  (dtype_util.base_equal a b = true <->
   dtype_util.as_numpy_dtype a = dtype_util.as_numpy_dtype b) /\
  dtype_util.base_equal a (dtype_util.base_dtype a) = true /\
  dtype_util.base_equal a (dtype_util.as_numpy_dtype a) = true /\
  dtype_util.base_dtype (dtype_util.as_numpy_dtype a)
  = dtype_util.base_dtype a.
Proof.
  split; [split; [apply base_equal_same_numpy | apply same_numpy_base_equal] |].
  split; [| split].
  - unfold dtype_util.base_equal. rewrite base_dtype_idempotent_aux.
    apply py_eq_refl.
  - unfold dtype_util.base_equal. rewrite base_dtype_as_numpy.
    apply py_eq_refl.
  - apply base_dtype_as_numpy.
Qed.

Lemma base_equal_iff_same_numpy_witness :
  dtype_util.as_numpy_dtype (TfDType tf.float32_ref)
  = dtype_util.as_numpy_dtype (NpType np_float32) /\
  dtype_util.base_equal (TfDType tf.float32_ref) (NpType np_float32) = true.
Proof.
  split; [reflexivity |].
  apply (proj1 (base_equal_iff_same_numpy (TfDType tf.float32_ref)
                  (NpType np_float32))).
  reflexivity.
Defined.

(* ===================================================================== *)
(** ** Further properties: common_dtype *)

Lemma seen_entry_inv (c : pyobject) (dt : dtype_like) :
  seen_entry c = Some dt ->
  exists dc, dtype_util.dtype_of c = Some dc /\
             dt = dtype_util.as_numpy_dtype dc.
Proof.
  unfold seen_entry. destruct (dtype_util.dtype_of c) as [dc |]; simpl.
  - intros H. injection H as <-. eauto.
  - discriminate.
Qed.

Lemma first_descriptor_In (vals : list pyobject) (d : dtype_like) :
  first_descriptor vals = Some d ->
  exists a da, In a vals /\ dtype_util.dtype_of a = Some da /\
               d = dtype_util.as_numpy_dtype da.
Proof.
  induction vals as [| a vals IH]; simpl; [discriminate |].
  destruct (seen_entry a) as [dt |] eqn:Ha.
  - intros H. injection H as <-.
    destruct (seen_entry_inv a dt Ha) as (da & Hda & ->).
    exists a, da. repeat split; auto.
  - intros H. destruct (IH H) as (b & db & Hin & Hdb & ->).
    exists b, db. repeat split; auto.
Qed.

Lemma first_descriptor_None (vals : list pyobject) :
  first_descriptor vals = None ->
  forall a, In a vals -> dtype_util.dtype_of a = None.
Proof.
  induction vals as [| b vals IH]; simpl; [contradiction |].
  unfold seen_entry at 1.
  destruct (dtype_util.dtype_of b) eqn:Hb; simpl; [discriminate |].
  intros H a [<- | Hin]; [exact Hb | exact (IH H a Hin)].
Qed.

Lemma nth_error_In_vals (vals : list pyobject) (k : nat) (c : pyobject) :
  nth_error vals k = Some c -> In c vals.
Proof. apply nth_error_In. Qed.

(** In strict mode the loop ends normally exactly when the dtypes carried
    are pairwise base-equal, and then with the first of them. *)
Lemma strict_ok_pairwise (cfg : config) (vals : list pyobject)
    (st' : dtype_util.common_state) :
  SKIP_DTYPE_CHECKS cfg = false ->
  for_each (dtype_util.common_dtype_body cfg) vals
    (dtype_util.mkState None []) = Ok st' ->
  pairwise_base_equal vals /\
  dtype_util.st_dtype st' = first_descriptor vals.
Proof.
  intros Hskip Hrun.
  destruct (strict_loop cfg Hskip vals (dtype_util.mkState None []))
    as [(st'' & Hrun' & Hseen & Hdt & Hall)
       | (d1 & d2 & k & c & Hrun' & _)].
  { intros d Hd. discriminate Hd. }
  - rewrite Hrun in Hrun'. injection Hrun' as <-. split; [| exact Hdt].
    intros a b da db Hia Hib Hda Hdb.
    destruct (Hall a _ Hia (seen_entry_Some a da Hda)) as (d & Hd & Hea).
    destruct (Hall b _ Hib (seen_entry_Some b db Hdb)) as (d' & Hd' & Heb).
    assert (d' = d) by congruence. subst d'.
    apply same_numpy_base_equal.
    rewrite !as_numpy_dtype_NpType in *. f_equal.
    eapply py_eq_numpy_unique; eassumption.
  - rewrite Hrun in Hrun'. discriminate Hrun'.
Qed.

Lemma strict_raise_conflict (cfg : config) (vals : list pyobject)
    (e : exception) :
  SKIP_DTYPE_CHECKS cfg = false ->
  for_each (dtype_util.common_dtype_body cfg) vals
    (dtype_util.mkState None []) = Raise e ->
  exists a b da db seen,
    In a vals /\ In b vals /\
    dtype_util.dtype_of a = Some da /\ dtype_util.dtype_of b = Some db /\
    py_ne (dtype_util.as_numpy_dtype da) (dtype_util.as_numpy_dtype db)
    = true /\
    e = TypeError_incompatible_seen (dtype_util.as_numpy_dtype da)
          (dtype_util.as_numpy_dtype db) seen.
Proof.
  intros Hskip Hrun.
  destruct (strict_loop cfg Hskip vals (dtype_util.mkState None []))
    as [(st'' & Hrun' & _)
       | (d1 & d2 & k & c & Hrun' & Hk & Hc & Hn & Hr & Hin)].
  { intros d Hd. discriminate Hd. }
  - rewrite Hrun in Hrun'. discriminate Hrun'.
  - rewrite Hrun in Hrun'. injection Hrun' as ->.
    unfold running in Hr. cbn [dtype_util.st_dtype] in Hr.
    destruct (first_descriptor_In vals d1 Hr) as (a & da & Hia & Hda & ->).
    destruct (seen_entry_inv c d2 Hc) as (dc & Hdc & ->).
    exists a, c, da, dc. eexists.
    repeat split; eauto using nth_error_In_vals.
Qed.

Lemma strict_pairwise_ok (cfg : config) (vals : list pyobject) :
  SKIP_DTYPE_CHECKS cfg = false ->
  pairwise_base_equal vals ->
  exists st',
    for_each (dtype_util.common_dtype_body cfg) vals
      (dtype_util.mkState None []) = Ok st' /\
    dtype_util.st_dtype st' = first_descriptor vals.
Proof.
  intros Hskip Hpair.
  destruct (for_each (dtype_util.common_dtype_body cfg) vals
              (dtype_util.mkState None [])) as [st' | e] eqn:Hrun.
  - exists st'. split; [reflexivity |].
    exact (proj2 (strict_ok_pairwise cfg vals st' Hskip Hrun)).
  - exfalso.
    destruct (strict_raise_conflict cfg vals e Hskip Hrun)
      as (a & b & da & db & seen & Hia & Hib & Hda & Hdb & Hne & _).
    rewrite (base_equal_same_numpy da db (Hpair a b da db Hia Hib Hda Hdb))
      in Hne.
    rewrite py_ne_irrefl in Hne. discriminate Hne.
Qed.

Lemma pairwise_first_descriptor (vals : list pyobject)
    (a : pyobject) (da : dtype_like) :
  pairwise_base_equal vals ->
  In a vals -> dtype_util.dtype_of a = Some da ->
  first_descriptor vals = Some (dtype_util.as_numpy_dtype da).
Proof.
  intros Hpair Hia Hda.
  destruct (first_descriptor vals) as [d |] eqn:Hf.
  - destruct (first_descriptor_In vals d Hf) as (b & db & Hib & Hdb & ->).
    f_equal. apply base_equal_same_numpy. eauto.
  - rewrite (first_descriptor_None vals Hf a Hia) in Hda. discriminate Hda.
Qed.

Lemma common_dtype_strict_ok (cfg : config) (args_list : nest)
    (dtype_hint : option dtype_like) (a : pyobject) (da : dtype_like) :
  SKIP_DTYPE_CHECKS cfg = false ->
  pairwise_base_equal (dtype_util.flatten args_list) ->
  In a (dtype_util.flatten args_list) ->
  dtype_util.dtype_of a = Some da ->
  dtype_util.common_dtype cfg args_list dtype_hint
  = Ok (Some (dtype_util.base_dtype da)).
Proof.
  intros Hskip Hpair Hia Hda. unfold dtype_util.common_dtype.
  destruct (strict_pairwise_ok cfg _ Hskip Hpair) as (st' & -> & Hdt).
  cbn [bind].
  rewrite Hdt, (pairwise_first_descriptor _ a da Hpair Hia Hda).
  rewrite base_dtype_as_numpy. reflexivity.
Qed.

(** X3: in strict mode, when the dtypes the values carry are pairwise
    base-equal and some value carries the dtype [da], [common_dtype] returns
    the base form of [da], whatever the hint and wherever the value sits. *)
Theorem common_dtype_strict_agreement
    (cfg : config) (args_list : nest) (dtype_hint : option dtype_like)
    (a : pyobject) (da : dtype_like) :
  SKIP_DTYPE_CHECKS cfg = false ->
  pairwise_base_equal (dtype_util.flatten args_list) ->
  In a (dtype_util.flatten args_list) ->
  dtype_util.dtype_of a = Some da ->
  dtype_util.common_dtype cfg args_list dtype_hint
  = Ok (Some (dtype_util.base_dtype da)).
Proof. apply common_dtype_strict_ok. Qed.

(** X4: in strict mode [common_dtype] raises only for a conflict: every
    exception it raises is the incompatible-dtypes [TypeError] for the NumPy
    forms of the dtypes of two values of the collection that are not
    base-equal. *)
Theorem common_dtype_strict_raises_only_on_conflict
    (cfg : config) (args_list : nest) (dtype_hint : option dtype_like)
    (e : exception) :
  SKIP_DTYPE_CHECKS cfg = false ->
  dtype_util.common_dtype cfg args_list dtype_hint = Raise e ->
  exists a b da db seen,
    In a (dtype_util.flatten args_list) /\
    In b (dtype_util.flatten args_list) /\
    dtype_util.dtype_of a = Some da /\ dtype_util.dtype_of b = Some db /\
    dtype_util.base_equal da db = false /\
    e = TypeError_incompatible_seen (dtype_util.as_numpy_dtype da)
          (dtype_util.as_numpy_dtype db) seen.
Proof.
  intros Hskip H. unfold dtype_util.common_dtype in H.
  destruct (for_each (dtype_util.common_dtype_body cfg)
              (dtype_util.flatten args_list) (dtype_util.mkState None []))
    as [st' | e'] eqn:Hrun; cbn [bind] in H.
  - destruct (dtype_util.st_dtype st'); discriminate H.
  - injection H as ->.
    destruct (strict_raise_conflict cfg _ e Hskip Hrun)
      as (a & b & da & db & seen & Hia & Hib & Hda & Hdb & Hne & He).
    exists a, b, da, db, seen. repeat split; auto.
    destruct (dtype_util.base_equal da db) eqn:Hbe; [| reflexivity].
    rewrite (base_equal_same_numpy da db Hbe), py_ne_irrefl in Hne.
    discriminate Hne.
Qed.

Lemma common_dtype_strict_agreement_witness :
  let x := tensor "x" tf.float32_ref in
  let y := tensor "y" tf.float32 in
  let args_list := Nested [Leaf (scalar "1"); Leaf x; Nested [Leaf y]] in
  SKIP_DTYPE_CHECKS default_config = false /\
  pairwise_base_equal (dtype_util.flatten args_list) /\
  dtype_util.common_dtype default_config args_list (Some (NpType np_int8))
  = Ok (Some (TfDType tf.float32)).
Proof.
  intros x y args_list.
  assert (Hpair : pairwise_base_equal (dtype_util.flatten args_list)).
  { intros a b da db Ha Hb Hda Hdb. simpl in Ha, Hb.
    destruct Ha as [<- | [<- | [<- | []]]];
      destruct Hb as [<- | [<- | [<- | []]]];
      try discriminate Hda; try discriminate Hdb;
      injection Hda as <-; injection Hdb as <-; reflexivity. }
  split; [reflexivity |]. split; [exact Hpair |].
  apply (common_dtype_strict_agreement default_config args_list
           (Some (NpType np_int8)) y (TfDType tf.float32)
           eq_refl Hpair).
  - simpl. right. right. left. reflexivity.
  - reflexivity.
Defined.

Lemma common_dtype_strict_raises_only_on_conflict_witness :
  let args_list := Nested [Leaf (tensor "x" tf.int32);
                           Leaf (tensor "y" tf.float32)] in
  let e := TypeError_incompatible_seen (NpType np_int32) (NpType np_float32)
             [Some (NpType np_int32); Some (NpType np_float32)] in
  SKIP_DTYPE_CHECKS default_config = false /\
  dtype_util.common_dtype default_config args_list None = Raise e /\
  exists a b da db seen,
    In a (dtype_util.flatten args_list) /\
    In b (dtype_util.flatten args_list) /\
    dtype_util.dtype_of a = Some da /\ dtype_util.dtype_of b = Some db /\
    dtype_util.base_equal da db = false /\
    e = TypeError_incompatible_seen (dtype_util.as_numpy_dtype da)
          (dtype_util.as_numpy_dtype db) seen.
Proof.
  intros args_list e. split; [reflexivity |]. split; [reflexivity |].
  apply (common_dtype_strict_raises_only_on_conflict default_config
           args_list None e); reflexivity.
Defined.

(** X5: in strict mode the success of [common_dtype] and its result do not
    depend on the order of the values: if it returns [r] for one collection,
    it returns [r] for every collection with the same values in another
    order. *)
Theorem common_dtype_strict_order
    (cfg : config) (args1 args2 : nest) (dtype_hint r : option dtype_like) :
  SKIP_DTYPE_CHECKS cfg = false ->
  Permutation (dtype_util.flatten args1) (dtype_util.flatten args2) ->
  dtype_util.common_dtype cfg args1 dtype_hint = Ok r ->
  dtype_util.common_dtype cfg args2 dtype_hint = Ok r.
Proof.
  intros Hskip Hperm H. unfold dtype_util.common_dtype in H.
  destruct (for_each (dtype_util.common_dtype_body cfg)
              (dtype_util.flatten args1) (dtype_util.mkState None []))
    as [st' | e'] eqn:Hrun; cbn [bind] in H; [| discriminate H].
  destruct (strict_ok_pairwise cfg _ st' Hskip Hrun) as (Hpair & Hdt).
  assert (Hpair2 : pairwise_base_equal (dtype_util.flatten args2)).
  { intros a b da db Hia Hib. apply Hpair.
    - exact (Permutation_in a (Permutation_sym Hperm) Hia).
    - exact (Permutation_in b (Permutation_sym Hperm) Hib). }
  rewrite Hdt in H.
  destruct (first_descriptor (dtype_util.flatten args1)) as [d |] eqn:Hf.
  - injection H as <-.
    destruct (first_descriptor_In _ d Hf) as (a & da & Hia & Hda & ->).
    rewrite base_dtype_as_numpy.
    apply (common_dtype_strict_ok cfg args2 dtype_hint a da Hskip Hpair2);
      [exact (Permutation_in a Hperm Hia) | exact Hda].
  - injection H as <-. unfold dtype_util.common_dtype.
    rewrite (loop_no_descriptor cfg (dtype_util.flatten args2)).
    + reflexivity.
    + intros a Hia. apply (first_descriptor_None _ Hf).
      exact (Permutation_in a (Permutation_sym Hperm) Hia).
Qed.

Lemma common_dtype_strict_order_witness :
  let x := tensor "x" tf.float32_ref in
  let y := tensor "y" tf.float32 in
  let n := scalar "1" in
  SKIP_DTYPE_CHECKS default_config = false /\
  Permutation (dtype_util.flatten (Nested [Leaf x; Leaf n; Leaf y]))
    (dtype_util.flatten (Nested [Nested [Leaf n; Leaf y]; Leaf x])) /\
  dtype_util.common_dtype default_config
    (Nested [Nested [Leaf n; Leaf y]; Leaf x]) None
  = Ok (Some (TfDType tf.float32)).
Proof.
  intros x y n.
  assert (Hperm : Permutation
                    (dtype_util.flatten (Nested [Leaf x; Leaf n; Leaf y]))
                    (dtype_util.flatten
                       (Nested [Nested [Leaf n; Leaf y]; Leaf x]))).
  { simpl. apply (Permutation_cons_append [n; y] x). }
  split; [reflexivity |]. split; [exact Hperm |].
  apply (common_dtype_strict_order default_config
           (Nested [Leaf x; Leaf n; Leaf y])
           (Nested [Nested [Leaf n; Leaf y]; Leaf x])
           None (Some (TfDType tf.float32)) eq_refl Hperm).
  reflexivity.
Defined.

Lemma body_strict_ok (cfg cfg' : config)
    (st s : dtype_util.common_state) (a : pyobject) :
  SKIP_DTYPE_CHECKS cfg = false ->
  dtype_util.common_dtype_body cfg st a = Ok s ->
  dtype_util.common_dtype_body cfg' st a = Ok s.
Proof.
  intros Hskip. unfold dtype_util.common_dtype_body. rewrite Hskip.
  destruct (dtype_util.dtype_of a) as [a_dtype |]; [| auto].
  destruct (dtype_util.st_dtype st) as [dtype |]; [| auto].
  destruct (py_ne dtype (dtype_util.as_numpy_dtype a_dtype));
    [discriminate | auto].
Qed.

Lemma loop_strict_ok (cfg cfg' : config) (vals : list pyobject) :
  SKIP_DTYPE_CHECKS cfg = false ->
  forall st s,
    for_each (dtype_util.common_dtype_body cfg) vals st = Ok s ->
    for_each (dtype_util.common_dtype_body cfg') vals st = Ok s.
Proof.
  intros Hskip. induction vals as [| a vals IH]; intros st s; cbn [for_each].
  - auto.
  - destruct (dtype_util.common_dtype_body cfg st a) as [s1 | e] eqn:Hb;
      cbn [bind]; [| discriminate].
    rewrite (body_strict_ok cfg cfg' st s1 a Hskip Hb). cbn [bind].
    apply IH.
Qed.

(** X6: skipping the checks changes nothing where the strict mode succeeds:
    whenever [common_dtype] returns [r] with [SKIP_DTYPE_CHECKS] off, it
    returns the same [r] under every setting of the flags. *)
Theorem common_dtype_skip_agrees_with_strict
    (cfg cfg' : config) (args_list : nest)
    (dtype_hint r : option dtype_like) :
  SKIP_DTYPE_CHECKS cfg = false ->
  dtype_util.common_dtype cfg args_list dtype_hint = Ok r ->
  dtype_util.common_dtype cfg' args_list dtype_hint = Ok r.
Proof.
  intros Hskip H. unfold dtype_util.common_dtype in *.
  destruct (for_each (dtype_util.common_dtype_body cfg)
              (dtype_util.flatten args_list) (dtype_util.mkState None []))
    as [st' | e'] eqn:Hrun; cbn [bind] in H; [| discriminate H].
  rewrite (loop_strict_ok cfg cfg' _ Hskip _ _ Hrun). exact H.
Qed.

Lemma common_dtype_skip_agrees_with_strict_witness :
  let args_list := Nested [Leaf (tensor "x" tf.float64);
                           Leaf (tensor "y" (mkDType DT_DOUBLE true))] in
  SKIP_DTYPE_CHECKS default_config = false /\
  dtype_util.common_dtype default_config args_list None
  = Ok (Some (TfDType tf.float64)) /\
  dtype_util.common_dtype skip_config args_list None
  = Ok (Some (TfDType tf.float64)).
Proof.
  intros args_list. split; [reflexivity |]. split; [reflexivity |].
  apply (common_dtype_skip_agrees_with_strict default_config skip_config
           args_list None (Some (TfDType tf.float64)));
    reflexivity.
Defined.

Lemma flatten_leaves (vals : list pyobject) :
  dtype_util.flatten (Nested (map Leaf vals)) = vals.
Proof.
  simpl. induction vals as [| a vals IH]; simpl; [| rewrite IH]; reflexivity.
Qed.

(** The outcome of an iteration depends on the state through the running
    dtype only. *)
Lemma body_same_dtype (cfg : config) (st st2 : dtype_util.common_state)
    (a : pyobject) :
  dtype_util.st_dtype st = dtype_util.st_dtype st2 ->
  match dtype_util.common_dtype_body cfg st a,
        dtype_util.common_dtype_body cfg st2 a with
  | Ok s, Ok s2 => dtype_util.st_dtype s = dtype_util.st_dtype s2
  | Raise _, Raise _ => True
  | _, _ => False
  end.
Proof.
  intros Hd. unfold dtype_util.common_dtype_body. rewrite <- Hd.
  destruct (dtype_util.dtype_of a) as [a_dtype |]; [| reflexivity].
  destruct (dtype_util.st_dtype st) as [dtype |]; [| reflexivity].
  destruct (py_ne dtype (dtype_util.as_numpy_dtype a_dtype));
    [| reflexivity].
  destruct (SKIP_DTYPE_CHECKS cfg); [| exact I].
  destruct (dtype_util.ones_add_dtype dtype
              (dtype_util.as_numpy_dtype a_dtype)); simpl; auto.
Qed.

Lemma loop_without_plain_values (cfg : config) (vals : list pyobject) :
  forall st st2,
    dtype_util.st_dtype st = dtype_util.st_dtype st2 ->
    match for_each (dtype_util.common_dtype_body cfg) vals st,
          for_each (dtype_util.common_dtype_body cfg)
            (filter carries_dtype vals) st2 with
    | Ok s, Ok s2 => dtype_util.st_dtype s = dtype_util.st_dtype s2
    | Raise _, Raise _ => True
    | _, _ => False
    end.
Proof.
  induction vals as [| a vals IH]; intros st st2 Hd; cbn [for_each filter].
  - exact Hd.
  - destruct (carries_dtype a) eqn:Hc.
    + cbn [for_each].
      pose proof (body_same_dtype cfg st st2 a Hd) as Hb.
      destruct (dtype_util.common_dtype_body cfg st a) as [s |],
               (dtype_util.common_dtype_body cfg st2 a) as [s2 |];
        cbn [bind]; try contradiction; [apply IH; exact Hb | exact I].
    + unfold carries_dtype in Hc.
      destruct (dtype_util.dtype_of a) eqn:Ha; [discriminate Hc |].
      unfold dtype_util.common_dtype_body at 1. rewrite Ha. cbn [bind].
      apply IH. exact Hd.
Qed.

(** X7: values without a dtype are transparent to [common_dtype], in either
    mode: the call returns [r] on a collection exactly when it returns [r]
    on the collection of its values that carry a dtype. *)
Theorem common_dtype_ignores_plain_values
    (cfg : config) (args_list : nest) (dtype_hint r : option dtype_like) :
  dtype_util.common_dtype cfg args_list dtype_hint = Ok r <->
  dtype_util.common_dtype cfg
    (Nested (map Leaf (filter carries_dtype (dtype_util.flatten args_list))))
    dtype_hint = Ok r.
Proof.
  unfold dtype_util.common_dtype. rewrite flatten_leaves.
  pose proof (loop_without_plain_values cfg (dtype_util.flatten args_list)
                (dtype_util.mkState None []) (dtype_util.mkState None [])
                eq_refl) as H.
  destruct (for_each (dtype_util.common_dtype_body cfg)
              (dtype_util.flatten args_list) (dtype_util.mkState None []))
    as [s |],
    (for_each (dtype_util.common_dtype_body cfg)
       (filter carries_dtype (dtype_util.flatten args_list))
       (dtype_util.mkState None [])) as [s2 |];
    cbn [bind]; try contradiction.
  - rewrite H. reflexivity.
  - split; discriminate.
Qed.

Lemma common_dtype_ignores_plain_values_witness :
  let args_list := Nested [Leaf (scalar "1"); Leaf (tensor "x" tf.int8);
                           Nested [Leaf (scalar "2.")]] in
  dtype_util.common_dtype skip_config args_list None
  = Ok (Some (TfDType tf.int8)) /\
  dtype_util.common_dtype skip_config
    (Nested (map Leaf (filter carries_dtype (dtype_util.flatten args_list))))
    None = Ok (Some (TfDType tf.int8)).
Proof.
  intros args_list. split; [reflexivity |].
  apply (proj1 (common_dtype_ignores_plain_values skip_config args_list
                  None (Some (TfDType tf.int8)))).
  reflexivity.
Defined.

Lemma body_keeps_dtype (cfg : config) (st s : dtype_util.common_state)
    (a : pyobject) :
  dtype_util.common_dtype_body cfg st a = Ok s ->
  dtype_util.st_dtype s = None ->
  dtype_util.st_dtype st = None /\ dtype_util.dtype_of a = None.
Proof.
  unfold dtype_util.common_dtype_body.
  destruct (dtype_util.dtype_of a) as [a_dtype |].
  - destruct (dtype_util.st_dtype st) as [dtype |].
    + destruct (py_ne dtype (dtype_util.as_numpy_dtype a_dtype)).
      * destruct (SKIP_DTYPE_CHECKS cfg); [| discriminate].
        destruct (dtype_util.ones_add_dtype dtype
                    (dtype_util.as_numpy_dtype a_dtype)); simpl;
          [| discriminate].
        intros H. injection H as <-. discriminate.
      * intros H. injection H as <-. discriminate.
    + intros H. injection H as <-. discriminate.
  - intros H. injection H as <-. simpl. auto.
Qed.

Lemma loop_dtype_None (cfg : config) (vals : list pyobject) :
  forall st s,
    for_each (dtype_util.common_dtype_body cfg) vals st = Ok s ->
    dtype_util.st_dtype s = None ->
    dtype_util.st_dtype st = None /\
    forall a, In a vals -> dtype_util.dtype_of a = None.
Proof.
  induction vals as [| a vals IH]; intros st s; cbn [for_each].
  - intros H. injection H as <-. intros Hs. split; [exact Hs |].
    intros a [].
  - destruct (dtype_util.common_dtype_body cfg st a) as [s1 | e] eqn:Hb;
      cbn [bind]; [| discriminate].
    intros Hrun Hs. destruct (IH s1 s Hrun Hs) as (Hs1 & Hall).
    destruct (body_keeps_dtype cfg st s1 a Hb Hs1) as (Hst & Ha).
    split; [exact Hst |].
    intros b [<- | Hin]; [exact Ha | exact (Hall b Hin)].
Qed.

Lemma existsb_carries_false (vals : list pyobject) :
  existsb carries_dtype vals = false ->
  forall a, In a vals -> dtype_util.dtype_of a = None.
Proof.
  induction vals as [| b vals IH]; simpl; [contradiction |].
  intros H. apply orb_false_elim in H. destruct H as (Hb & Hrest).
  intros a [<- | Hin]; [| exact (IH Hrest a Hin)].
  unfold carries_dtype in Hb.
  destruct (dtype_util.dtype_of b); [discriminate | reflexivity].
Qed.

(** X8: in either mode the hint decides the result of [common_dtype] exactly
    when no value carries a dtype.  If some value carries one, the result is
    a dtype in base form, whatever the hint; otherwise it is the hint. *)
Theorem common_dtype_result_source
    (cfg : config) (args_list : nest) (dtype_hint r : option dtype_like) :
  dtype_util.common_dtype cfg args_list dtype_hint = Ok r ->
  if existsb carries_dtype (dtype_util.flatten args_list)
  then exists d, r = Some d /\ dtype_util.base_dtype d = d
  else r = dtype_hint.
Proof.
  unfold dtype_util.common_dtype.
  destruct (for_each (dtype_util.common_dtype_body cfg)
              (dtype_util.flatten args_list) (dtype_util.mkState None []))
    as [s |] eqn:Hrun; cbn [bind]; [| discriminate].
  destruct (existsb carries_dtype (dtype_util.flatten args_list)) eqn:Hex.
  - destruct (dtype_util.st_dtype s) as [dtype |] eqn:Hs.
    + intros H. injection H as <-. eexists. split; [reflexivity |].
      apply base_dtype_idempotent_aux.
    + exfalso.
      destruct (loop_dtype_None cfg _ _ _ Hrun Hs) as (_ & Hall).
      apply existsb_exists in Hex. destruct Hex as (a & Hin & Hc).
      unfold carries_dtype in Hc. rewrite (Hall a Hin) in Hc.
      discriminate Hc.
  - rewrite (loop_no_descriptor cfg _ _ (existsb_carries_false _ Hex))
      in Hrun.
    injection Hrun as <-. simpl. intros H. injection H as <-. reflexivity.
Qed.

Lemma common_dtype_result_source_witness :
  let args_list := Nested [Leaf (scalar "1");
                           Leaf (tensor "x" tf.float32_ref)] in
  dtype_util.common_dtype default_config args_list (Some (NpType np_int8))
  = Ok (Some (TfDType tf.float32)) /\
  exists d, Some (TfDType tf.float32) = Some d /\
            dtype_util.base_dtype d = d.
Proof.
  intros args_list. split; [reflexivity |].
  apply (common_dtype_result_source default_config args_list
           (Some (NpType np_int8)) (Some (TfDType tf.float32))).
  reflexivity.
Defined.

(* ===================================================================== *)
(** ** Further properties: convert_to_dtype *)

(** X9: in strict mode, whatever [convert_to_dtype] returns for an input
    other than [None] when an explicit dtype is given is base-equal to that
    dtype. *)
Theorem convert_to_dtype_strict_result
    (cfg : config) (x : tensor_or_dtype) (d : dtype_like)
    (dtype_hint r : option dtype_like) :
  SKIP_DTYPE_CHECKS cfg = false ->
  x <> IsNone ->
  dtype_util.convert_to_dtype cfg x (Some d) dtype_hint = Ok r ->
  exists dt, r = Some dt /\ dtype_util.base_equal d dt = true.
Proof.
  intros Hskip Hx. unfold dtype_util.convert_to_dtype.
  destruct (dtype_util.convert_to_dtype_dt x (Some d) dtype_hint)
    as [dt | e] eqn:Hdt.
  - destruct x; try congruence; cbn [bind]; rewrite Hskip;
      cbn [negb truthy andb];
      (destruct (dtype_util.base_equal d dt) eqn:Hbe; cbn [negb];
       [ intros H; injection H as <-; eauto | discriminate ]).
  - destruct x; try congruence; cbn [bind]; discriminate.
Qed.

Lemma convert_to_dtype_strict_result_witness :
  SKIP_DTYPE_CHECKS default_config = false /\
  IsTensor tf.float32_ref <> IsNone /\
  dtype_util.convert_to_dtype default_config (IsTensor tf.float32_ref)
    (Some (NpType np_float32)) None = Ok (Some (TfDType tf.float32)) /\
  exists dt, Some (TfDType tf.float32) = Some dt /\
             dtype_util.base_equal (NpType np_float32) dt = true.
Proof.
  split; [reflexivity |]. split; [discriminate |]. split; [reflexivity |].
  apply (convert_to_dtype_strict_result default_config
           (IsTensor tf.float32_ref) (NpType np_float32) None
           (Some (TfDType tf.float32)));
    [reflexivity | discriminate | reflexivity].
Defined.

(** X10: for a NumPy array, and for a NumPy type that [np.issctype]
    accepts, [convert_to_dtype] never raises, in either mode: it returns the
    base form of the explicit dtype if there is one, else of the hint if
    there is one, else of the dtype of the input itself.  A NumPy type that
    [np.issctype] rejects ([object_]) is left to [tf.convert_to_tensor],
    which raises. *)
Theorem convert_to_dtype_numpy_defers
    (cfg : config) (t : np_type) (dtype dtype_hint : option dtype_like) :
  let chosen :=
    match dtype, dtype_hint with
    | Some d, _ => d
    | None, Some h => h
    | None, None => NpType t
    end in
  dtype_util.convert_to_dtype cfg (IsNdarray t) dtype dtype_hint
  = Ok (Some (dtype_util.base_dtype chosen)) /\
  (np.issctype t = true ->
   dtype_util.convert_to_dtype cfg (IsNpType t) dtype dtype_hint
   = Ok (Some (dtype_util.base_dtype chosen))) /\
  (np.issctype t = false ->
   exists e,
     dtype_util.convert_to_dtype cfg (IsNpType t) dtype dtype_hint
     = Raise e).
Proof.
  unfold dtype_util.convert_to_dtype. cbn [dtype_util.convert_to_dtype_dt].
  split; [| split].
  - destruct dtype as [d |]; [| destruct dtype_hint; reflexivity].
    simpl. unfold dtype_util.base_equal. rewrite base_dtype_idempotent_aux.
    rewrite py_eq_refl. simpl. rewrite andb_false_r. reflexivity.
  - intros ->.
    destruct dtype as [d |]; [| destruct dtype_hint; reflexivity].
    simpl. unfold dtype_util.base_equal. rewrite base_dtype_idempotent_aux.
    rewrite py_eq_refl. simpl. rewrite andb_false_r. reflexivity.
  - intros ->. simpl. eauto.
Qed.

Lemma convert_to_dtype_numpy_defers_witness :
  (np.issctype np_int16 = true /\
   dtype_util.convert_to_dtype default_config (IsNpType np_int16)
     None (Some (TfDType tf.float32_ref)) = Ok (Some (TfDType tf.float32))) /\
  (np.issctype np_object_ = false /\
   exists e,
     dtype_util.convert_to_dtype default_config (IsNpType np_object_)
       None None = Raise e).
Proof.
  split.
  - split; [reflexivity |].
    apply (proj1 (proj2 (convert_to_dtype_numpy_defers default_config
                           np_int16 None (Some (TfDType tf.float32_ref))))).
    reflexivity.
  - split; [reflexivity |].
    apply (proj2 (proj2 (convert_to_dtype_numpy_defers default_config
                           np_object_ None None))).
    reflexivity.
Defined.

(** X11: the dtype [convert_to_dtype] returns for a tensor, a [DType], a
    NumPy array or a NumPy scalar type is always in base form. *)
Theorem convert_to_dtype_result_base_form
    (cfg : config) (x : tensor_or_dtype)
    (dtype dtype_hint : option dtype_like) (r : dtype_like) :
  x <> IsNone ->
  (forall converted_dtype, x <> IsObject converted_dtype) ->
  dtype_util.convert_to_dtype cfg x dtype dtype_hint = Ok (Some r) ->
  dtype_util.base_dtype r = r.
Proof.
  intros Hnone Hobj. unfold dtype_util.convert_to_dtype.
  destruct x as [| t | t | t | t | f]; try congruence;
    try (exfalso; exact (Hobj f eq_refl));
    cbn [dtype_util.convert_to_dtype_dt];
    try (destruct (np.issctype t); [| discriminate]);
    cbn [bind];
    (destruct dtype as [d |];
     [ match goal with
       | |- context [if ?c then _ else _] => destruct c
       end; [discriminate |]
     | ]);
    intros H; injection H as <-; apply base_dtype_idempotent_aux.
Qed.

Lemma convert_to_dtype_result_base_form_witness :
  IsDType tf.float32_ref <> IsNone /\
  (forall converted_dtype,
      IsDType tf.float32_ref <> IsObject converted_dtype) /\
  dtype_util.convert_to_dtype skip_config (IsDType tf.float32_ref)
    (Some (TfDType tf.int32)) None = Ok (Some (TfDType tf.float32)) /\
  dtype_util.base_dtype (TfDType tf.float32) = TfDType tf.float32.
Proof.
  split; [discriminate |]. split; [discriminate |]. split; [reflexivity |].
  apply (convert_to_dtype_result_base_form skip_config
           (IsDType tf.float32_ref) (Some (TfDType tf.int32)) None
           (TfDType tf.float32));
    [discriminate | discriminate | reflexivity].
Defined.

(* ===================================================================== *)
(** ** Further properties: _assert_same_base_type *)

(** What the first pass has established when it ends without a mismatch. *)
Lemma first_pass_ok (items : list (option pyobject)) :
  forall expected e',
    dtype_util.first_pass items expected = Ok (false, e') ->
    (forall item, In (Some item) items ->
                  exists e, e' = Some e /\ agrees e (Some item)) /\
    (forall x, expected = Some x -> e' = Some x).
Proof.
  induction items as [| [item |] items IH]; intros expected e' H;
    simpl in H.
  - injection H as <-. split; [intros item [] | auto].
  - destruct (dtype_util.item_base_dtype item) as [t | err] eqn:Ht;
      simpl in H; [| discriminate].
    destruct expected as [x |].
    + destruct (py_ne x t) eqn:Hne; [discriminate |].
      destruct (IH _ _ H) as (Hall & Hx). split; [| exact Hx].
      intros it [Heq | Hin]; [| exact (Hall it Hin)].
      injection Heq as <-. exists x. split; [apply Hx; reflexivity |].
      simpl. eauto.
    + destruct (IH _ _ H) as (Hall & Hx). split; [| discriminate].
      intros it [Heq | Hin]; [| exact (Hall it Hin)].
      injection Heq as <-. exists t. split; [apply Hx; reflexivity |].
      simpl. exists t. split; [exact Ht | apply py_ne_irrefl].
  - destruct (IH _ _ H) as (Hall & Hx). split; [| exact Hx].
    intros it [Heq | Hin]; [discriminate | exact (Hall it Hin)].
Qed.

Lemma assert_same_base_type_ok (items : list (option pyobject))
    (expected r : option dtype_like) :
  dtype_util._assert_same_base_type items expected = Ok r ->
  dtype_util.first_pass items expected = Ok (false, r).
Proof.
  unfold dtype_util._assert_same_base_type.
  destruct (dtype_util.first_pass items expected) as [[[|] e'] | err] eqn:Hf;
    simpl.
  - destruct (second_pass_raises items expected None e' Hf)
      as (it & ty & ex & o' & _ & _ & _ & _ & Hs).
    rewrite Hs. discriminate.
  - intros H. injection H as <-. reflexivity.
  - discriminate.
Qed.

Lemma assert_same_base_type_agrees (items : list (option pyobject))
    (expected r : option dtype_like) :
  dtype_util._assert_same_base_type items expected = Ok r ->
  (forall i, In i items ->
             match r with
             | Some e => agrees e i
             | None => i = None
             end) /\
  (forall x, expected = Some x -> r = Some x).
Proof.
  intros H. apply assert_same_base_type_ok in H.
  destruct (first_pass_ok items expected r H) as (Hall & Hx).
  split; [| exact Hx].
  intros [item |] Hin.
  - destruct (Hall item Hin) as (e & -> & Hag). exact Hag.
  - destruct r; [exact I | reflexivity].
Qed.

(** X12: when [_assert_same_base_type] returns, it returns the expected type
    as it was given if one was given; every item that is not [None] has a
    base dtype that does not differ from the type returned; and [None] is
    returned only when every item is [None]. *)
Theorem assert_same_base_type_result
    (items : list (option pyobject)) (expected r : option dtype_like) :
  dtype_util._assert_same_base_type items expected = Ok r ->
  (forall i, In i items ->
             match r with
             | Some e => agrees e i
             | None => i = None
             end) /\
  (forall x, expected = Some x -> r = Some x).
Proof. apply assert_same_base_type_agrees. Qed.

Lemma assert_same_base_type_result_witness :
  let items := [None; Some (tensor "a" tf.float32_ref);
                Some (tensor "b" tf.float32)] in
  dtype_util._assert_same_base_type items None = Ok (Some (TfDType tf.float32))
  /\ (forall i, In i items -> agrees (TfDType tf.float32) i).
Proof.
  intros items. split; [reflexivity |].
  apply (assert_same_base_type_result items None
           (Some (TfDType tf.float32))).
  reflexivity.
Defined.

Lemma first_pass_filter (items : list (option pyobject)) :
  forall expected,
    dtype_util.first_pass (filter is_item items) expected
    = dtype_util.first_pass items expected.
Proof.
  induction items as [| [item |] items IH]; intros expected; simpl.
  - reflexivity.
  - destruct (dtype_util.item_base_dtype item) as [t |]; simpl;
      [| reflexivity].
    destruct expected as [x |]; [| apply IH].
    destruct (py_ne x t); [reflexivity | apply IH].
  - apply IH.
Qed.

Lemma second_pass_filter (items : list (option pyobject)) :
  forall expected orig,
    dtype_util.second_pass (filter is_item items) expected orig
    = dtype_util.second_pass items expected orig.
Proof.
  induction items as [| [item |] items IH]; intros expected orig; simpl.
  - reflexivity.
  - destruct (dtype_util.item_base_dtype item) as [t |]; simpl;
      [| reflexivity].
    destruct expected as [x |]; simpl; [| apply IH].
    destruct (py_ne x t); [reflexivity | apply IH].
  - apply IH.
Qed.

(** X13: [None] entries are ignored by [_assert_same_base_type]: removing
    them from [items] changes neither the type returned nor the exception
    raised. *)
Theorem assert_same_base_type_ignores_None
    (items : list (option pyobject)) (expected : option dtype_like) :
  dtype_util._assert_same_base_type (filter is_item items) expected
  = dtype_util._assert_same_base_type items expected.
Proof.
  unfold dtype_util._assert_same_base_type.
  rewrite first_pass_filter, second_pass_filter. reflexivity.
Qed.

Lemma first_pass_agreeing (x : dtype_like) (pre rest : list (option pyobject)) :
  Forall (agrees x) pre ->
  dtype_util.first_pass (pre ++ rest) (Some x)
  = dtype_util.first_pass rest (Some x).
Proof.
  induction 1 as [| [item |] pre Hag _ IH]; simpl; auto.
  destruct Hag as (t & -> & Hne). simpl. rewrite Hne. exact IH.
Qed.

Lemma second_pass_agreeing (x : dtype_like) (orig : option string)
    (pre rest : list (option pyobject)) :
  Forall (agrees x) pre ->
  dtype_util.second_pass (pre ++ rest) (Some x) orig
  = dtype_util.second_pass rest (Some x) orig.
Proof.
  induction 1 as [| [item |] pre Hag _ IH]; simpl; auto.
  destruct Hag as (t & -> & Hne). simpl. rewrite Hne. exact IH.
Qed.

Lemma passes_skip_None (nones rest : list (option pyobject))
    (expected : option dtype_like) (orig : option string) :
  Forall (fun i => i = None) nones ->
  dtype_util.first_pass (nones ++ rest) expected
  = dtype_util.first_pass rest expected /\
  dtype_util.second_pass (nones ++ rest) expected orig
  = dtype_util.second_pass rest expected orig.
Proof.
  induction 1 as [| i nones -> _ IH]; simpl; auto.
Qed.

(** X14: the mismatch error of [_assert_same_base_type] names the first item
    whose base dtype differs from the expected type, and nothing after that
    item is looked at.  With an expected type given, the error carries that
    type and no "as" part; with none given, the expected type is the base
    dtype of the first item that is not [None], and the "as" part is the
    name of that item, unless that name is the empty string, when the
    message has no "as" part either. *)
Theorem assert_same_base_type_error
    (nones pre post : list (option pyobject)) (first item : pyobject)
    (x t : dtype_like) :
  Forall (agrees x) pre ->
  dtype_util.item_base_dtype item = Ok t ->
  py_ne x t = true ->
  dtype_util._assert_same_base_type (pre ++ Some item :: post) (Some x)
  = Raise (ValueError_same_type (dtype_util.get_name item) t x None) /\
  (Forall (fun i => i = None) nones ->
   dtype_util.item_base_dtype first = Ok x ->
   dtype_util._assert_same_base_type
     (nones ++ Some first :: pre ++ Some item :: post) None
   = Raise (ValueError_same_type (dtype_util.get_name item) t x
              (if String.eqb (dtype_util.get_name first) ""
               then None
               else Some (dtype_util.get_name first)))).
Proof.
  intros Hpre Ht Hne. split.
  - unfold dtype_util._assert_same_base_type.
    rewrite (first_pass_agreeing x pre _ Hpre). simpl.
    rewrite Ht. simpl. rewrite Hne.
    rewrite (second_pass_agreeing x None pre _ Hpre). simpl.
    rewrite Ht. simpl. rewrite Hne. reflexivity.
  - intros Hnones Hfirst. unfold dtype_util._assert_same_base_type.
    rewrite (proj1 (passes_skip_None nones _ None None Hnones)). simpl.
    rewrite Hfirst. simpl.
    rewrite (first_pass_agreeing x pre _ Hpre). simpl.
    rewrite Ht. simpl. rewrite Hne.
    rewrite (proj2 (passes_skip_None nones _ None None Hnones)). simpl.
    rewrite Hfirst. simpl.
    rewrite (second_pass_agreeing x _ pre _ Hpre). simpl.
    rewrite Ht. simpl. rewrite Hne. reflexivity.
Qed.

Lemma assert_same_base_type_error_witness :
  let a := tensor "a" tf.float32 in
  let anon := tensor "" tf.float32 in
  let b := tensor "b" tf.int32 in
  Forall (agrees (TfDType tf.float32)) [None; Some a] /\
  dtype_util._assert_same_base_type
    ([None] ++ Some a :: [None; Some a] ++ Some b :: [Some (scalar "1")])
    None
  = Raise (ValueError_same_type "b" (TfDType tf.int32) (TfDType tf.float32)
             (Some "a"%string)) /\
  dtype_util._assert_same_base_type
    ([None] ++ Some anon :: [None; Some a] ++ Some b :: [Some (scalar "1")])
    None
  = Raise (ValueError_same_type "b" (TfDType tf.int32) (TfDType tf.float32)
             None).
Proof.
  intros a anon b.
  assert (Hpre : Forall (agrees (TfDType tf.float32)) [None; Some a]).
  { repeat constructor. exists (TfDType tf.float32). split; reflexivity. }
  split; [exact Hpre |]. split.
  - apply (proj2 (assert_same_base_type_error [None] [None; Some a]
                    [Some (scalar "1")] a b (TfDType tf.float32)
                    (TfDType tf.int32) Hpre eq_refl eq_refl)).
    + repeat constructor.
    + reflexivity.
  - apply (proj2 (assert_same_base_type_error [None] [None; Some a]
                    [Some (scalar "1")] anon b (TfDType tf.float32)
                    (TfDType tf.int32) Hpre eq_refl eq_refl)).
    + repeat constructor.
    + reflexivity.
Defined.

(* ===================================================================== *)
(** ** Further properties: assert_same_float_dtype *)

Lemma resolved_dtype_agrees (tensors : option (list (option pyobject)))
    (dtype r : option dtype_like) :
  dtype_util.resolved_dtype tensors dtype = Ok r ->
  (forall x, dtype = Some x -> r = Some x) /\
  (forall items i, tensors = Some items -> In i items ->
                   match r with
                   | Some e => agrees e i
                   | None => i = None
                   end).
Proof.
  unfold dtype_util.resolved_dtype.
  destruct tensors as [[| i0 items] |]; simpl.
  - intros H. injection H as <-. split; [auto |].
    intros items i Heq. injection Heq as <-. intros [].
  - intros H. destruct (assert_same_base_type_agrees _ _ _ H) as (Hall & Hx).
    split; [exact Hx |].
    intros items' i Heq. injection Heq as <-. apply Hall.
  - intros H. injection H as <-. split; [auto | discriminate].
Qed.

(** X15: whatever [assert_same_float_dtype] returns is a floating type; it is
    the explicit dtype itself when one was given; and no tensor that is not
    [None] has a base dtype that differs from it. *)
Theorem assert_same_float_dtype_result
    (tensors : option (list (option pyobject)))
    (dtype : option dtype_like) (d : dtype_like) :
  dtype_util.assert_same_float_dtype tensors dtype = Ok d ->
  dtype_util.is_floating d = true /\
  (forall x, dtype = Some x -> d = x) /\
  (forall items, tensors = Some items -> Forall (agrees d) items).
Proof.
  unfold dtype_util.assert_same_float_dtype.
  destruct (dtype_util.resolved_dtype tensors dtype) as [r | e] eqn:Hres;
    cbn [bind]; [| discriminate].
  destruct (resolved_dtype_agrees tensors dtype r Hres) as (Hx & Hall).
  destruct r as [d0 |].
  - destruct (dtype_util.is_floating d0) eqn:Hfl; cbn [negb];
      [| discriminate].
    intros H. injection H as <-. split; [exact Hfl |]. split.
    + intros x Hd. specialize (Hx x Hd). congruence.
    + intros items Ht. apply Forall_forall. intros i Hin.
      exact (Hall items i Ht Hin).
  - intros H. injection H as <-. split; [reflexivity |]. split.
    + intros x Hd. specialize (Hx x Hd). discriminate Hx.
    + intros items Ht. apply Forall_forall. intros i Hin.
      rewrite (Hall items i Ht Hin). exact I.
Qed.

Lemma assert_same_float_dtype_result_witness :
  let tensors := Some [Some (tensor "w" tf.float64); None;
                       Some (tensor "x" (mkDType DT_DOUBLE true))] in
  dtype_util.assert_same_float_dtype tensors (Some (NpType np_float64))
  = Ok (NpType np_float64) /\
  dtype_util.is_floating (NpType np_float64) = true.
Proof.
  intros tensors. split; [reflexivity |].
  apply (assert_same_float_dtype_result tensors (Some (NpType np_float64))
           (NpType np_float64)).
  reflexivity.
Defined.

(* ===================================================================== *)
(** ** Further properties: categories, bounds, size and real part *)

(** X16: the category of a dtype, its size and its bounds depend on its base
    form only: the reference qualifier and the choice between a [DType] and
    its NumPy form change none of them. *)
Theorem category_of_base_form (d : dtype_like) :
  let b := dtype_util.base_dtype d in
  let n := dtype_util.as_numpy_dtype d in
  (dtype_util.is_bool b = dtype_util.is_bool d /\
   dtype_util.is_integer b = dtype_util.is_integer d /\
   dtype_util.is_floating b = dtype_util.is_floating d /\
   dtype_util.is_complex b = dtype_util.is_complex d /\
   dtype_util.size b = dtype_util.size d) /\
  (dtype_util.is_bool n = dtype_util.is_bool d /\
   dtype_util.is_integer n = dtype_util.is_integer d /\
   dtype_util.is_floating n = dtype_util.is_floating d /\
   dtype_util.is_complex n = dtype_util.is_complex d /\
   dtype_util.size n = dtype_util.size d) /\
  (forall v, dtype_util.max d = Ok v ->
             dtype_util.max b = Ok v /\ dtype_util.max n = Ok v) /\
  (forall v, dtype_util.min d = Ok v ->
             dtype_util.min b = Ok v /\ dtype_util.min n = Ok v).
Proof.
  destruct d as [[e r] | t]; [destruct e | destruct t];
    (split; [repeat split; reflexivity |]);
    (split; [repeat split; reflexivity |]);
    split; intros v H;
    first [ split; exact H | exfalso; vm_compute in H; discriminate H ].
Qed.

Lemma category_of_base_form_witness :
  dtype_util.max (TfDType (mkDType DT_INT16 true)) = Ok 32767 /\
  dtype_util.max (dtype_util.base_dtype (TfDType (mkDType DT_INT16 true)))
  = Ok 32767 /\
  dtype_util.max (dtype_util.as_numpy_dtype (TfDType (mkDType DT_INT16 true)))
  = Ok 32767.
Proof.
  split; [reflexivity |].
  apply (proj1 (proj2 (proj2 (category_of_base_form
                                (TfDType (mkDType DT_INT16 true)))))).
  reflexivity.
Defined.

(** X17: [max] and [min] are defined together on the integer and floating
    dtypes, where [min <= 0 < max], with [min = - max] for a floating dtype;
    on a dtype that is neither integer nor floating nor complex both
    raise. *)
Theorem max_min_defined_together (d : dtype_like) :
  (dtype_util.is_integer d || dtype_util.is_floating d = true ->
   exists hi lo,
     dtype_util.max d = Ok hi /\ dtype_util.min d = Ok lo /\
     lo <= 0 < hi /\
     (dtype_util.is_floating d = true -> lo = - hi)) /\
  (is_numeric d && negb (dtype_util.is_bool d) = false ->
   exists e1 e2, dtype_util.max d = Raise e1 /\ dtype_util.min d = Raise e2).
Proof.
  destruct d as [[e r] | t]; [destruct e | destruct t];
    (split; intros H;
     [ first [ vm_compute in H; discriminate H
             | eexists; eexists;
               split; [reflexivity |]; split; [reflexivity |];
               split; [split; [discriminate | reflexivity] |];
               intros H';
               first [ vm_compute in H'; discriminate H' | reflexivity ] ]
     | first [ vm_compute in H; discriminate H
             | eexists; eexists; split; reflexivity ] ]).
Qed.

Lemma max_min_defined_together_witness :
  dtype_util.is_integer (TfDType tf.float16)
  || dtype_util.is_floating (TfDType tf.float16) = true /\
  exists hi lo,
    dtype_util.max (TfDType tf.float16) = Ok hi /\
    dtype_util.min (TfDType tf.float16) = Ok lo /\
    lo <= 0 < hi /\
    (dtype_util.is_floating (TfDType tf.float16) = true -> lo = - hi).
Proof.
  split; [reflexivity |].
  apply (proj1 (max_min_defined_together (TfDType tf.float16))).
  reflexivity.
Defined.

(** X18: the real part of a complex dtype is a floating dtype of half its
    size; any other dtype is its own real part (as a [DType]); the real part
    is never complex, so taking it twice is taking it once. *)
Theorem real_dtype_properties (d : dtype_like) :
  (dtype_util.is_complex d = true ->
   dtype_util.is_floating (dtype_util.real_dtype d) = true /\
   2 * dtype_util.size (dtype_util.real_dtype d) = dtype_util.size d) /\
  (dtype_util.is_complex d = false ->
   dtype_util.real_dtype d = tf.as_dtype d) /\
  dtype_util.is_complex (dtype_util.real_dtype d) = false /\
  dtype_util.real_dtype (dtype_util.real_dtype d) = dtype_util.real_dtype d.
Proof.
  destruct d as [[e r] | t]; [destruct e | destruct t];
    (split; [intros H; first [discriminate H | split; reflexivity] |]);
    (split; [intros H; first [discriminate H | reflexivity] |]);
    split; reflexivity.
Qed.

Lemma real_dtype_properties_witness :
  dtype_util.is_complex (NpType np_complex128) = true /\
  dtype_util.is_floating (dtype_util.real_dtype (NpType np_complex128))
  = true /\
  2 * dtype_util.size (dtype_util.real_dtype (NpType np_complex128))
  = dtype_util.size (NpType np_complex128).
Proof.
  split; [reflexivity |].
  apply (proj1 (real_dtype_properties (NpType np_complex128))).
  reflexivity.
Defined.

(** X19: [as_numpy_dtype] yields a normal form: applying it again changes
    nothing, it does not see the reference qualifier that [base_dtype]
    strips, and converting the NumPy form back with [tf.as_dtype] gives the
    base form. *)
Theorem as_numpy_dtype_normal_form (d : dtype_like) :
  dtype_util.as_numpy_dtype (dtype_util.as_numpy_dtype d)
  = dtype_util.as_numpy_dtype d /\
  dtype_util.as_numpy_dtype (dtype_util.base_dtype d)
  = dtype_util.as_numpy_dtype d /\
  tf.as_dtype (dtype_util.as_numpy_dtype d) = dtype_util.base_dtype d.
Proof.
  destruct d as [[e r] | t]; [destruct e | destruct t];
    repeat split; reflexivity.
Qed.

(* ===================================================================== *)
(** ** Further properties: the exceptions of assert_same_float_dtype *)

Lemma item_base_dtype_has_dtype (item : pyobject) :
  has_dtype (Some item) ->
  exists t, dtype_util.item_base_dtype item = Ok t.
Proof.
  intros (d & Hd). unfold dtype_util.item_base_dtype. rewrite Hd. eauto.
Qed.

Lemma first_pass_has_dtype (items : list (option pyobject)) :
  Forall has_dtype items ->
  forall expected, exists r, dtype_util.first_pass items expected = Ok r.
Proof.
  induction 1 as [| [item |] items Hi _ IH]; intros expected; simpl.
  - eauto.
  - destruct (item_base_dtype_has_dtype item Hi) as (t & ->). simpl.
    destruct expected as [x |]; [| apply IH].
    destruct (py_ne x t); [eauto | apply IH].
  - apply IH.
Qed.

Lemma assert_same_base_type_raises (items : list (option pyobject))
    (expected : option dtype_like) (e : exception) :
  Forall has_dtype items ->
  dtype_util._assert_same_base_type items expected = Raise e ->
  exists n t x o, e = ValueError_same_type n t x o.
Proof.
  intros Hwf. unfold dtype_util._assert_same_base_type.
  destruct (first_pass_has_dtype items Hwf expected) as ([[|] e'] & Hf);
    rewrite Hf; simpl.
  - destruct (second_pass_raises items expected None e' Hf)
      as (it & ty & ex & o' & _ & _ & _ & _ & Hs).
    rewrite Hs. intros H. injection H as <-. eauto.
  - discriminate.
Qed.

(** X20: when every tensor that is not [None] has a dtype,
    [assert_same_float_dtype] raises nothing but its two [ValueError]s: the
    mismatch error of [_assert_same_base_type] and the not-floating
    error. *)
Theorem assert_same_float_dtype_raises_ValueError
    (tensors : option (list (option pyobject)))
    (dtype : option dtype_like) (e : exception) :
  (forall items, tensors = Some items -> Forall has_dtype items) ->
  dtype_util.assert_same_float_dtype tensors dtype = Raise e ->
  (exists n t x o, e = ValueError_same_type n t x o) \/
  (exists d, e = ValueError_not_floating d).
Proof.
  intros Hwf. unfold dtype_util.assert_same_float_dtype.
  destruct (dtype_util.resolved_dtype tensors dtype) as [r | e'] eqn:Hres;
    cbn [bind].
  - destruct r as [d |]; [| discriminate].
    destruct (dtype_util.is_floating d); cbn [negb]; [discriminate |].
    intros H. injection H as <-. right. eauto.
  - intros H. injection H as ->. left.
    unfold dtype_util.resolved_dtype in Hres.
    destruct tensors as [items |]; [| discriminate Hres].
    destruct (dtype_util.nonempty (Some items)); [| discriminate Hres].
    exact (assert_same_base_type_raises items dtype e
             (Hwf items eq_refl) Hres).
Qed.

Lemma assert_same_float_dtype_raises_ValueError_witness :
  let tensors := Some [Some (tensor "a" tf.float32); None;
                       Some (tensor "b" tf.float64)] in
  let e := ValueError_same_type "b" (TfDType tf.float64)
             (TfDType tf.float32) (Some "a"%string) in
  (forall items, tensors = Some items -> Forall has_dtype items) /\
  dtype_util.assert_same_float_dtype tensors None = Raise e /\
  ((exists n t x o, e = ValueError_same_type n t x o) \/
   (exists d, e = ValueError_not_floating d)).
Proof.
  intros tensors e.
  assert (Hwf : forall items, tensors = Some items -> Forall has_dtype items).
  { intros items H. injection H as <-.
    repeat constructor; simpl; eauto. }
  split; [exact Hwf |]. split; [reflexivity |].
  apply (assert_same_float_dtype_raises_ValueError tensors None e Hwf).
  reflexivity.
Defined.

(** X21: [assert_same_float_dtype] accepts tensors of one floating type: if
    the first tensor that is not [None] has the floating base dtype [x] and
    no later tensor has a base dtype that differs from [x], the call without
    an explicit dtype returns [x]. *)
Theorem assert_same_float_dtype_accepts
    (nones rest : list (option pyobject)) (first : pyobject)
    (x : dtype_like) :
  Forall (fun i => i = None) nones ->
  dtype_util.item_base_dtype first = Ok x ->
  Forall (agrees x) rest ->
  dtype_util.is_floating x = true ->
  dtype_util.assert_same_float_dtype (Some (nones ++ Some first :: rest)) None
  = Ok x.
Proof.
  intros Hnones Hfirst Hrest Hfl.
  unfold dtype_util.assert_same_float_dtype, dtype_util.resolved_dtype.
  assert (Hne : dtype_util.nonempty (Some (nones ++ Some first :: rest))
                = true).
  { destruct nones; reflexivity. }
  rewrite Hne. unfold dtype_util._assert_same_base_type.
  rewrite (proj1 (passes_skip_None nones _ None None Hnones)). simpl.
  rewrite Hfirst. simpl.
  rewrite <- (app_nil_r rest), (first_pass_agreeing x rest [] Hrest). simpl.
  rewrite Hfl. reflexivity.
Qed.

Lemma assert_same_float_dtype_accepts_witness :
  let a := tensor "a" (mkDType DT_HALF true) in
  let b := tensor "b" tf.float16 in
  Forall (agrees (TfDType tf.float16)) [None; Some b] /\
  dtype_util.assert_same_float_dtype
    (Some ([None; None] ++ Some a :: [None; Some b])) None
  = Ok (TfDType tf.float16).
Proof.
  intros a b.
  assert (Hrest : Forall (agrees (TfDType tf.float16)) [None; Some b]).
  { repeat constructor. exists (TfDType tf.float16). split; reflexivity. }
  split; [exact Hrest |].
  apply (assert_same_float_dtype_accepts [None; None] [None; Some b] a
           (TfDType tf.float16));
    [repeat constructor | reflexivity | exact Hrest | reflexivity].
Defined.
